(** * The code-conversion endpoint of [api/routes/covert.py]

    A shallow embedding of the module: the language catalog
    [ProgrammingLanguage], the request, response and pipeline-state records,
    the two pipeline stages [extract_languages] and [convert_code], the
    two-node workflow of [build_chain] and the handler
    [convert_code_endpoint].

    The module talks to collaborators that live outside it: the gateway
    [utils.chat.chat], [json.loads], the formatting of non-string values in
    f-strings and the message of pydantic's validation error.  They are the
    fields of the class [Runtime]; every theorem holds for every instance. *)

From Stdlib Require Import String Ascii List ZArith Bool Lia DecimalString.
Import ListNotations.
Open Scope string_scope.

(** ** Python values and exceptions *)

(** The values [json.loads] produces, which are also the values of the
    keyword arguments handed to the gateway.  A float is carried as its
    decimal literal; no arithmetic is done on it. *)
#[local] Set Warnings "-register-all".
Inductive value : Type :=
| VNone
| VBool (b : bool)
| VInt (n : Z)
| VFloat (literal : string)
| VStr (s : string)
| VList (items : list value)
| VDict (entries : list (string * value)).

(** An exception object caught by [except Exception]: its class and
    [str(e)]. *)
Record PyExc : Type := mkExc { exc_class : string; exc_str : string }.

Inductive result (A : Type) : Type :=
| Ok (a : A)
| Raise (e : PyExc).
Arguments Ok {A} a.
Arguments Raise {A} e.

(** [d.get(k)] on the entries of a dict. *)
Fixpoint dict_get (entries : list (string * value)) (k : string) : option value :=
  match entries with
  | [] => None
  | (k', v) :: rest => if String.eqb k' k then Some v else dict_get rest k
  end.

(** ** The language catalog *)

Inductive ProgrammingLanguage : Type :=
| JAVASCRIPT | TYPESCRIPT | PHP | HTML | CSS
| PYTHON | JAVA | CSHARP | GO | RUST | RUBY | NODE
| KOTLIN | SWIFT | DART | FLUTTER | REACT_NATIVE
| CPP | C | ASSEMBLY
| SQL | PLSQL | MONGODB
| BASH | POWERSHELL
| SCALA | HASKELL | ELIXIR
| R | JULIA | MATLAB
| TERRAFORM | KUBERNETES | DOCKER
| LUA | PERL | GROOVY | COBOL | FORTRAN.

(** [lang.value] *)
Definition lang_value (lang : ProgrammingLanguage) : string :=
  match lang with
  | JAVASCRIPT => "javascript" | TYPESCRIPT => "typescript" | PHP => "php"
  | HTML => "html" | CSS => "css"
  | PYTHON => "python" | JAVA => "java" | CSHARP => "csharp" | GO => "go"
  | RUST => "rust" | RUBY => "ruby" | NODE => "nodejs"
  | KOTLIN => "kotlin" | SWIFT => "swift" | DART => "dart"
  | FLUTTER => "flutter" | REACT_NATIVE => "react_native"
  | CPP => "cpp" | C => "c" | ASSEMBLY => "assembly"
  | SQL => "sql" | PLSQL => "plsql" | MONGODB => "mongodb"
  | BASH => "bash" | POWERSHELL => "powershell"
  | SCALA => "scala" | HASKELL => "haskell" | ELIXIR => "elixir"
  | R => "r" | JULIA => "julia" | MATLAB => "matlab"
  | TERRAFORM => "terraform" | KUBERNETES => "kubernetes" | DOCKER => "docker"
  | LUA => "lua" | PERL => "perl" | GROOVY => "groovy" | COBOL => "cobol"
  | FORTRAN => "fortran"
  end.

(** Iterating the enum class yields its members in definition order. *)
Definition all_languages : list ProgrammingLanguage :=
  [ JAVASCRIPT; TYPESCRIPT; PHP; HTML; CSS;
    PYTHON; JAVA; CSHARP; GO; RUST; RUBY; NODE;
    KOTLIN; SWIFT; DART; FLUTTER; REACT_NATIVE;
    CPP; C; ASSEMBLY;
    SQL; PLSQL; MONGODB;
    BASH; POWERSHELL;
    SCALA; HASKELL; ELIXIR;
    R; JULIA; MATLAB;
    TERRAFORM; KUBERNETES; DOCKER;
    LUA; PERL; GROOVY; COBOL; FORTRAN ].

(** [[lang.value for lang in ProgrammingLanguage]] *)
Definition catalog_values : list string := map lang_value all_languages.

(** ** Request, response and pipeline state *)

Record CodeConvertRequest : Type := mkRequest {
  req_code : string;
  req_prompt : string
}.

Definition default_prompt : string := "Convert the code to the target language.".

(** Building the request model from a body: [prompt] is optional and falls
    back to the default of the field. *)
Definition CodeConvertRequest_new (code : string) (prompt : option string)
  : CodeConvertRequest :=
  {| req_code := code;
     req_prompt := match prompt with Some p => p | None => default_prompt end |}.

Record CodeConvertResponse : Type := mkResponse {
  resp_code : string;
  language_specific_notes : list string;
  potential_compatibility_issues : list string
}.

(** [ConversionState] is a [TypedDict], so nothing checks the annotations at
    run time: the two language fields and [result] hold whatever
    [json.loads] returned. *)
Record ConversionState : Type := mkState {
  st_code : string;
  st_prompt : string;
  source_language : value;
  target_language : value;
  st_result : value
}.

(** ** The collaborators *)

(** The keyword arguments of one call [chat(prompt=, temperature=,
    response_format=)]. *)
Record ChatCall : Type := mkCall {
  call_prompt : string;
  call_temperature : value;
  call_response_format : value
}.

Class Runtime : Type := {
  (** whatever the gateway's answers depend on besides the arguments *)
  Gateway : Type;
  (** [utils.chat.chat]: returns a string or raises *)
  chat : ChatCall -> Gateway -> result string * Gateway;
  (** [json.loads] on a string *)
  json_loads : string -> result value;
  (** [repr(v)], which is what an f-string inserts for a value that is not
      a [str] *)
  py_repr : value -> string;
  (** [str(e)] of the [ValidationError] pydantic raises when the three
      arguments of [CodeConvertResponse(...)] do not validate *)
  validation_error_str : value -> value -> value -> string
}.

(** The gateway together with the record of the calls made to it, oldest
    first (what a mock's call list holds). *)
Record World `{Runtime} : Type := mkWorld {
  gw : Gateway;
  calls : list ChatCall
}.

(** Computations that may call the gateway and may raise. *)
Definition M `{Runtime} (A : Type) : Type := World -> result A * World.

Definition ret `{Runtime} {A : Type} (a : A) : M A := fun w => (Ok a, w).

Definition raise `{Runtime} {A : Type} (e : PyExc) : M A := fun w => (Raise e, w).

Definition bind `{Runtime} {A B : Type} (m : M A) (k : A -> M B) : M B :=
  fun w =>
    match m w with
    | (Ok a, w') => k a w'
    | (Raise e, w') => (Raise e, w')
    end.

Definition lift `{Runtime} {A : Type} (r : result A) : M A := fun w => (r, w).

Notation "x <- m ;; k" := (bind m (fun x => k))
  (at level 61, m at next level, right associativity).

Definition call_chat `{Runtime} (c : ChatCall) : M string :=
  fun w =>
    let (r, g) := chat c (gw w) in
    (r, {| gw := g; calls := (calls w ++ [c])%list |}).

(** ** Subscripting and formatting *)

(** [v[key]] for a string key.  A dict without the key raises [KeyError],
    whose [str] is the repr of the key; any other value raises [TypeError]
    (messages as CPython 3.11 and later word them). *)
Definition subscript `{Runtime} (v : value) (key : string) : result value :=
  match v with
  | VDict entries =>
      match dict_get entries key with
      | Some x => Ok x
      | None => Raise (mkExc "KeyError" (py_repr (VStr key)))
      end
  | VList _ =>
      Raise (mkExc "TypeError" "list indices must be integers or slices, not str")
  | VStr _ =>
      Raise (mkExc "TypeError" "string indices must be integers, not 'str'")
  | VNone => Raise (mkExc "TypeError" "'NoneType' object is not subscriptable")
  | VBool _ => Raise (mkExc "TypeError" "'bool' object is not subscriptable")
  | VInt _ => Raise (mkExc "TypeError" "'int' object is not subscriptable")
  | VFloat _ => Raise (mkExc "TypeError" "'float' object is not subscriptable")
  end.

(** What an f-string inserts for [{v}]: [format(v, "")]. *)
Definition py_str `{Runtime} (v : value) : string :=
  match v with
  | VStr s => s
  | _ => py_repr v
  end.

Definition nl : string := String (ascii_of_nat 10) EmptyString.

(** ** Stage 1: language extraction *)

(** The f-string of [extract_languages], line by line. *)
Definition extraction_prompt (state : ConversionState) : string :=
  nl ++
  "    Analyze the following prompt and identify the source and target programming languages." ++ nl ++
  "    Return only a JSON object with 'source_language' and 'target_language'." ++ nl ++
  "    Use lowercase language names from this list: python, javascript, typescript, java, csharp, go, rust, cpp, swift, kotlin." ++ nl ++
  "    If languages are not explicitly mentioned, try to infer from context or code." ++ nl ++
  "    " ++ nl ++
  "    Prompt: " ++ st_prompt state ++ nl ++
  "    " ++ nl ++
  "    Code sample for reference:" ++ nl ++
  "    ```" ++ nl ++
  "    " ++ st_code state ++ nl ++
  "    ```" ++ nl ++
  "    ".

Definition language_enum_schema : value :=
  VDict [ ("type", VStr "string");
          ("enum", VList (map VStr catalog_values)) ].

Definition extraction_response_format : value :=
  VDict [ ("type", VStr "object");
          ("properties",
            VDict [ ("source_language", language_enum_schema);
                    ("target_language", language_enum_schema) ]);
          ("required", VList [VStr "source_language"; VStr "target_language"]) ].

Definition extraction_call (state : ConversionState) : ChatCall :=
  {| call_prompt := extraction_prompt state;
     call_temperature := VInt 0;
     call_response_format := extraction_response_format |}.

Definition extract_languages `{Runtime} (state : ConversionState) : M ConversionState :=
  response <- call_chat (extraction_call state) ;;
  languages <- lift (json_loads response) ;;
  src <- lift (subscript languages "source_language") ;;
  tgt <- lift (subscript languages "target_language") ;;
  ret {| st_code := st_code state;
         st_prompt := st_prompt state;
         source_language := src;
         target_language := tgt;
         st_result := st_result state |}.

(** ** Stage 2: code conversion *)

(** The f-string of [convert_code] up to the inserted code. *)
Definition conversion_prompt_head `{Runtime} (state : ConversionState) : string :=
  nl ++
  "    Please convert the following code from " ++ py_str (source_language state)
    ++ " to " ++ py_str (target_language state) ++ ":" ++ nl ++
  nl ++
  "    ---" ++ nl ++
  "    ### **📌 Original Code (" ++ py_str (source_language state) ++ ")**" ++ nl ++
  "    ```" ++ py_str (source_language state) ++ nl ++
  "    " ++ st_code state.

(** The rest of the f-string, which has no replacement field. *)
Definition conversion_prompt_tail : string :=
  nl ++
  "    ```" ++ nl ++
  nl ++
  "    **Conversion Requirements:**" ++ nl ++
  "    1️⃣ Maintain the same functionality and logic" ++ nl ++
  "    2️⃣ Use idiomatic patterns and best practices of the target language" ++ nl ++
  "    3️⃣ Ensure the converted code is executable" ++ nl ++
  "    4️⃣ Provide any language-specific considerations" ++ nl ++
  "    5️⃣ Note potential compatibility issues" ++ nl ++
  "    ".

Definition conversion_prompt `{Runtime} (state : ConversionState) : string :=
  conversion_prompt_head state ++ conversion_prompt_tail.

Definition conversion_response_format : value :=
  VDict [ ("type", VStr "object");
          ("properties",
            VDict [ ("code",
                      VDict [ ("type", VStr "string");
                              ("description", VStr "The converted code") ]);
                    ("language_specific_notes",
                      VDict [ ("type", VStr "array");
                              ("items", VDict [ ("type", VStr "string") ]);
                              ("description",
                                VStr "Important notes about the target language") ]);
                    ("potential_compatibility_issues",
                      VDict [ ("type", VStr "array");
                              ("items", VDict [ ("type", VStr "string") ]);
                              ("description",
                                VStr "List of potential compatibility concerns") ]) ]);
          ("required",
            VList [ VStr "code";
                    VStr "language_specific_notes";
                    VStr "potential_compatibility_issues" ]) ].

Definition conversion_call `{Runtime} (state : ConversionState) : ChatCall :=
  {| call_prompt := conversion_prompt state;
     call_temperature := VFloat "0.3";
     call_response_format := conversion_response_format |}.

Definition convert_code `{Runtime} (state : ConversionState) : M ConversionState :=
  response <- call_chat (conversion_call state) ;;
  parsed <- lift (json_loads response) ;;
  ret {| st_code := st_code state;
         st_prompt := st_prompt state;
         source_language := source_language state;
         target_language := target_language state;
         st_result := parsed |}.

(** ** The workflow *)

(** A state graph: named nodes and directed edges.  The entry point is the
    edge leaving [START] and the finish point the edge into [END]. *)
Record StateGraph `{Runtime} : Type := mkGraph {
  graph_nodes : list (string * (ConversionState -> M ConversionState));
  graph_edges : list (string * string)
}.

Definition START : string := "__start__".
Definition END : string := "__end__".

Definition empty_graph `{Runtime} : StateGraph :=
  {| graph_nodes := []; graph_edges := [] |}.

Definition add_node `{Runtime} (name : string)
  (action : ConversionState -> M ConversionState) (g : StateGraph) : StateGraph :=
  {| graph_nodes := (graph_nodes g ++ [(name, action)])%list;
     graph_edges := graph_edges g |}.

Definition add_edge `{Runtime} (start_key end_key : string) (g : StateGraph)
  : StateGraph :=
  {| graph_nodes := graph_nodes g;
     graph_edges := (graph_edges g ++ [(start_key, end_key)])%list |}.

Definition set_entry_point `{Runtime} (key : string) (g : StateGraph) : StateGraph :=
  add_edge START key g.

Definition set_finish_point `{Runtime} (key : string) (g : StateGraph) : StateGraph :=
  add_edge key END g.

Fixpoint lookup {A : Type} (l : list (string * A)) (k : string) : option A :=
  match l with
  | [] => None
  | (k', a) :: rest => if String.eqb k' k then Some a else lookup rest k
  end.

Definition build_chain `{Runtime} : StateGraph :=
  set_finish_point "convert_code"
    (set_entry_point "extract_languages"
      (add_edge "extract_languages" "convert_code"
        (add_node "convert_code" convert_code
          (add_node "extract_languages" extract_languages empty_graph)))).

(** The number of steps a run may take before the engine gives up. *)
Definition recursion_limit : nat := 25.

(** The engine runs the nodes inside a generator, and an exception leaves a
    generator as it is unless it is a [StopIteration], which the
    interpreter replaces by a [RuntimeError] (an instance of a subclass of
    [StopIteration] counts as one). *)
Definition generator_raise (e : PyExc) : PyExc :=
  if String.eqb (exc_class e) "StopIteration"
  then mkExc "RuntimeError" "generator raised StopIteration"
  else e.

Definition in_generator `{Runtime} {A : Type} (m : M A) : M A :=
  fun w =>
    match m w with
    | (Ok a, w') => (Ok a, w')
    | (Raise e, w') => (Raise (generator_raise e), w')
    end.

(** Running the graph from the node [current]: follow its outgoing edge, run
    the node it leads to on the state, and go on from there until the edge
    leads to [END].  An exception raised by a node ends the run and leaves
    it as an exception leaves a generator.  The two errors of the engine
    itself (their messages shortened here) do not arise for the chain of
    [build_chain]. *)
Fixpoint run_graph `{Runtime} (steps : nat) (g : StateGraph) (current : string)
  (state : ConversionState) : M ConversionState :=
  match lookup (graph_edges g) current with
  | None => ret state
  | Some next =>
      if String.eqb next END then ret state
      else
        match steps with
        | O => raise (mkExc "GraphRecursionError" "Recursion limit reached")
        | S steps' =>
            match lookup (graph_nodes g) next with
            | None => raise (mkExc "ValueError" "unknown node")
            | Some action =>
                state' <- in_generator (action state) ;;
                run_graph steps' g next state'
            end
        end
  end.

(** [chain.invoke(initial_state)] *)
Definition invoke `{Runtime} (chain : StateGraph) (initial_state : ConversionState)
  : M ConversionState :=
  run_graph recursion_limit chain START initial_state.

(** ** The endpoint *)

Definition as_str (v : value) : option string :=
  match v with
  | VStr s => Some s
  | _ => None
  end.

Fixpoint as_str_items (items : list value) : option (list string) :=
  match items with
  | [] => Some []
  | v :: rest =>
      match as_str v, as_str_items rest with
      | Some s, Some l => Some (s :: l)
      | _, _ => None
      end
  end.

Definition as_str_list (v : value) : option (list string) :=
  match v with
  | VList items => as_str_items items
  | _ => None
  end.

(** [CodeConvertResponse(code=, language_specific_notes=,
    potential_compatibility_issues=)]: the model validates its three
    fields together and raises one [ValidationError] when any of them is
    not of the annotated type. *)
Definition CodeConvertResponse_new `{Runtime} (code notes issues : value)
  : result CodeConvertResponse :=
  match as_str code, as_str_list notes, as_str_list issues with
  | Some c, Some n, Some i =>
      Ok {| resp_code := c;
            language_specific_notes := n;
            potential_compatibility_issues := i |}
  | _, _, _ =>
      Raise (mkExc "ValidationError" (validation_error_str code notes issues))
  end.

Definition initial_state (request : CodeConvertRequest) : ConversionState :=
  {| st_code := req_code request;
     st_prompt := req_prompt request;
     source_language := VStr "";
     target_language := VStr "";
     st_result := VDict [] |}.

(** The body of the [try] block. *)
Definition try_body `{Runtime} (request : CodeConvertRequest) : M CodeConvertResponse :=
  final_state <- invoke build_chain (initial_state request) ;;
  code <- lift (subscript (st_result final_state) "code") ;;
  notes <- lift (subscript (st_result final_state) "language_specific_notes") ;;
  issues <- lift (subscript (st_result final_state) "potential_compatibility_issues") ;;
  lift (CodeConvertResponse_new code notes issues).

(** What the handler hands to the framework: the response model, or an
    [HTTPException]. *)
Inductive Outcome : Type :=
| Returned (response : CodeConvertResponse)
| HTTPException (status_code : Z) (detail : string).

(** A text holds a lone surrogate when it has the three-byte form of a code
    point from U+D800 to U+DFFF: the byte ED followed by a byte from A0 to
    BF.  Such a text has no UTF-8 encoding. *)
Fixpoint has_lone_surrogate (s : string) : bool :=
  match s with
  | EmptyString => false
  | String a tail =>
      match tail with
      | String b _ =>
          (N_of_ascii a =? 237)%N && (160 <=? N_of_ascii b)%N && (N_of_ascii b <=? 191)%N
      | EmptyString => false
      end
      || has_lone_surrogate tail
  end.

(** Whether the route can write the returned model as the JSON body. *)
Definition serialisable (response : CodeConvertResponse) : bool :=
  negb (has_lone_surrogate (resp_code response))
  && forallb (fun s => negb (has_lone_surrogate s)) (language_specific_notes response)
  && forallb (fun s => negb (has_lone_surrogate s))
       (potential_compatibility_issues response).

(** The status the route answers with.  A returned model is serialised by
    the framework after the handler has returned, outside its [try]: the
    answer is 200 when that succeeds and 500 when it does not.  An
    [HTTPException] is answered with its own status. *)
Definition http_status (o : Outcome) : Z :=
  match o with
  | Returned response => if serialisable response then 200%Z else 500%Z
  | HTTPException status_code _ => status_code
  end.

Definition convert_code_endpoint `{Runtime} (request : CodeConvertRequest) (w : World)
  : Outcome * World :=
  match try_body request w with
  | (Ok response, w') => (Returned response, w')
  | (Raise e, w') =>
      (HTTPException 500 ("Code conversion failed: " ++ exc_str e), w')
  end.

(** ** Reading the two instructions and the two schemas

    The functions of this part are not in the module: they say what an
    instruction text lists and what a schema accepts, so that statements
    about them can be made. *)

(** Equality of values, entry by entry. *)
Fixpoint value_eqb (a b : value) {struct a} : bool :=
  match a, b with
  | VNone, VNone => true
  | VBool x, VBool y => Bool.eqb x y
  | VInt x, VInt y => Z.eqb x y
  | VFloat x, VFloat y => String.eqb x y
  | VStr x, VStr y => String.eqb x y
  | VList xs, VList ys =>
      (fix items (xs ys : list value) {struct xs} : bool :=
         match xs, ys with
         | [], [] => true
         | x :: xs', y :: ys' => value_eqb x y && items xs' ys'
         | _, _ => false
         end) xs ys
  | VDict xs, VDict ys =>
      (fix entries (xs ys : list (string * value)) {struct xs} : bool :=
         match xs, ys with
         | [], [] => true
         | (k, x) :: xs', (k', y) :: ys' =>
             String.eqb k k' && value_eqb x y && entries xs' ys'
         | _, _ => false
         end) xs ys
  | _, _ => false
  end.

(** The [type] keyword of a JSON schema. *)
Definition has_type (t : string) (inst : value) : bool :=
  match inst with
  | VDict _ => String.eqb t "object"
  | VList _ => String.eqb t "array"
  | VStr _ => String.eqb t "string"
  | VInt _ => String.eqb t "integer" || String.eqb t "number"
  | VFloat _ => String.eqb t "number"
  | VBool _ => String.eqb t "boolean"
  | VNone => String.eqb t "null"
  end.

Definition has_key (inst : value) (k : value) : bool :=
  match inst, k with
  | VDict entries, VStr name =>
      match dict_get entries name with Some _ => true | None => false end
  | _, _ => true
  end.

(** Whether [inst] satisfies a JSON schema written with the keywords the
    module uses: [type], [enum], [required], [properties] and [items].
    [required] and [properties] constrain objects only and [items] arrays
    only; other keywords ([description]) constrain nothing. *)
Fixpoint conforms (schema inst : value) {struct schema} : bool :=
  match schema with
  | VDict keywords =>
      (fix all_keywords (kws : list (string * value)) : bool :=
         match kws with
         | [] => true
         | (kw, arg) :: rest =>
             (if String.eqb kw "type" then
                match arg with VStr t => has_type t inst | _ => true end
              else if String.eqb kw "enum" then
                match arg with
                | VList allowed => existsb (value_eqb inst) allowed
                | _ => true
                end
              else if String.eqb kw "required" then
                match arg with VList ks => forallb (has_key inst) ks | _ => true end
              else if String.eqb kw "properties" then
                match arg, inst with
                | VDict props, VDict entries =>
                    (fix all_props (ps : list (string * value)) : bool :=
                       match ps with
                       | [] => true
                       | (name, sub) :: ps' =>
                           match dict_get entries name with
                           | Some x => conforms sub x
                           | None => true
                           end && all_props ps'
                       end) props
                | _, _ => true
                end
              else if String.eqb kw "items" then
                match inst with
                | VList xs => forallb (conforms arg) xs
                | _ => true
                end
              else true)
             && all_keywords rest
         end) keywords
  | _ => true
  end.

(** The pieces of [s] between occurrences of [sep]. *)
Fixpoint split_at (sep : ascii) (s : string) : list string :=
  match s with
  | EmptyString => [EmptyString]
  | String c rest =>
      if Ascii.eqb c sep then EmptyString :: split_at sep rest
      else
        match split_at sep rest with
        | [] => [String c EmptyString]
        | piece :: pieces => String c piece :: pieces
        end
  end.

Definition lines (s : string) : list string := split_at (ascii_of_nat 10) s.

Fixpoint lstrip (s : string) : string :=
  match s with
  | String " " rest => lstrip rest
  | _ => s
  end.

(** The text after the first occurrence of [marker], if there is one. *)
Fixpoint after_marker (marker s : string) : option string :=
  if String.prefix marker s then
    Some (String.substring (String.length marker) (String.length s) s)
  else
    match s with
    | EmptyString => None
    | String _ rest => after_marker marker rest
    end.

(** Whether [text] occurs in [instruction]. *)
Definition mentions (text instruction : string) : bool :=
  match after_marker text instruction with
  | Some _ => true
  | None => false
  end.

Fixpoint take_until (stop : ascii) (s : string) : string :=
  match s with
  | EmptyString => EmptyString
  | String c rest => if Ascii.eqb c stop then EmptyString else String c (take_until stop rest)
  end.

(** The names an instruction offers after the words "from this list: ", up
    to the full stop that ends the sentence. *)
Definition listed_names (instruction : string) : list string :=
  match after_marker "from this list: " instruction with
  | None => []
  | Some rest => map lstrip (split_at "," (take_until "." rest))
  end.

(** A line is an item of a numbered list when it starts with a digit
    followed by the keycap sign (U+FE0F U+20E3). *)
Definition keycap : string :=
  String (ascii_of_nat 239) (String (ascii_of_nat 184) (String (ascii_of_nat 143)
  (String (ascii_of_nat 226) (String (ascii_of_nat 131) (String (ascii_of_nat 163)
  EmptyString))))).

Definition is_digit (c : ascii) : bool :=
  (48 <=? nat_of_ascii c)%nat && (nat_of_ascii c <=? 57)%nat.

Definition is_numbered_item (line : string) : bool :=
  match line with
  | String c rest => is_digit c && String.prefix keycap rest
  | EmptyString => false
  end.

(** The numbered items of an instruction, in order. *)
Definition numbered_items (instruction : string) : list string :=
  filter is_numbered_item (map lstrip (lines instruction)).

(** ** A runtime to run the module on

    A decoder for JSON texts, a rendering of values and a scripted gateway:
    enough to execute the endpoint on concrete requests.  Texts are byte
    strings in UTF-8. *)

Definition dquote : ascii := ascii_of_nat 34.
Definition backslash : ascii := ascii_of_nat 92.

Definition is_ws (c : ascii) : bool :=
  match nat_of_ascii c with
  | 32 | 9 | 10 | 13 => true
  | _ => false
  end.

Fixpoint skip_ws (s : string) : string :=
  match s with
  | String c rest => if is_ws c then skip_ws rest else s
  | EmptyString => s
  end.

Definition hex_digit (c : ascii) : option N :=
  let n := N_of_ascii c in
  if (48 <=? n)%N && (n <=? 57)%N then Some (n - 48)%N
  else if (65 <=? n)%N && (n <=? 70)%N then Some (n - 55)%N
  else if (97 <=? n)%N && (n <=? 102)%N then Some (n - 87)%N
  else None.

Definition hex4 (a b c d : ascii) : option N :=
  match hex_digit a, hex_digit b, hex_digit c, hex_digit d with
  | Some x, Some y, Some z, Some t => Some (((x * 16 + y) * 16 + z) * 16 + t)%N
  | _, _, _, _ => None
  end.

Definition byte (n : N) : string := String (ascii_of_N n) EmptyString.

(** The UTF-8 bytes of a code point. *)
Definition utf8 (cp : N) : string :=
  if (cp <? 128)%N then byte cp
  else if (cp <? 2048)%N then byte (192 + cp / 64) ++ byte (128 + cp mod 64)
  else if (cp <? 65536)%N then
    byte (224 + cp / 4096) ++ byte (128 + (cp / 64) mod 64) ++ byte (128 + cp mod 64)
  else
    byte (240 + cp / 262144) ++ byte (128 + (cp / 4096) mod 64)
      ++ byte (128 + (cp / 64) mod 64) ++ byte (128 + cp mod 64).

Definition simple_escape (c : ascii) : option string :=
  match nat_of_ascii c with
  | 34 => Some (byte 34)    (* quote *)
  | 92 => Some (byte 92)    (* backslash *)
  | 47 => Some "/"
  | 98 => Some (byte 8)     (* b *)
  | 102 => Some (byte 12)   (* f *)
  | 110 => Some (byte 10)   (* n *)
  | 114 => Some (byte 13)   (* r *)
  | 116 => Some (byte 9)    (* t *)
  | _ => None
  end.

Definition prepend (chunk : string) (r : option (string * string))
  : option (string * string) :=
  match r with
  | Some (body, rest) => Some (chunk ++ body, rest)
  | None => None
  end.

Definition is_high_surrogate (n : N) : bool := (55296 <=? n)%N && (n <=? 56319)%N.
Definition is_low_surrogate (n : N) : bool := (56320 <=? n)%N && (n <=? 57343)%N.

(** The low half of a surrogate pair written [\uXXXX] at the head of [s]. *)
Definition low_surrogate_at (s : string) : option N :=
  match s with
  | String e (String u (String a (String b (String c (String d _))))) =>
      if Ascii.eqb e backslash && Ascii.eqb u "u" then
        match hex4 a b c d with
        | Some lo => if is_low_surrogate lo then Some lo else None
        | None => None
        end
      else None
  | _ => None
  end.

(** The body of a string literal, from after its opening quote: the decoded
    text and what follows the closing quote. *)
Fixpoint scan_string (s : string) : option (string * string) :=
  match s with
  | EmptyString => None
  | String c rest =>
      if Ascii.eqb c dquote then Some (EmptyString, rest)
      else if Ascii.eqb c backslash then
        match rest with
        | EmptyString => None
        | String e rest' =>
            if Ascii.eqb e "u" then
              match rest' with
              | String a (String b (String x (String d rest''))) =>
                  match hex4 a b x d with
                  | None => None
                  | Some hi =>
                      match (if is_high_surrogate hi then low_surrogate_at rest''
                             else None), rest'' with
                      | Some lo, String _ (String _ (String _ (String _ (String _
                                   (String _ rest6))))) =>
                          prepend (utf8 (65536 + (hi - 55296) * 1024 + (lo - 56320))%N)
                                  (scan_string rest6)
                      | _, _ => prepend (utf8 hi) (scan_string rest'')
                      end
                  end
              | _ => None
              end
            else
              match simple_escape e with
              | Some chunk => prepend chunk (scan_string rest')
              | None => None
              end
        end
      else if (nat_of_ascii c <? 32)%nat then None
      else prepend (String c EmptyString) (scan_string rest)
  end.

Fixpoint take_digits (s : string) : string * string :=
  match s with
  | String c rest =>
      if is_digit c then let (ds, r) := take_digits rest in (String c ds, r)
      else (EmptyString, s)
  | EmptyString => (EmptyString, s)
  end.

Definition digits_value (ds : string) : Z :=
  fold_left (fun acc c => (acc * 10 + Z.of_nat (nat_of_ascii c - 48))%Z)
            (list_ascii_of_string ds) 0%Z.

(** The integer part [0] or [[1-9][0-9]*] at the head of [s]. *)
Definition scan_int_part (s : string) : option (string * string) :=
  match s with
  | String c rest =>
      if Ascii.eqb c "0" then Some ("0", rest)
      else if is_digit c then Some (take_digits s)
      else None
  | EmptyString => None
  end.

(** The optional fraction [\.[0-9]+]. *)
Definition scan_frac (s : string) : string * string :=
  match s with
  | String "." rest =>
      match take_digits rest with
      | (EmptyString, _) => (EmptyString, s)
      | (ds, r) => (String "." ds, r)
      end
  | _ => (EmptyString, s)
  end.

(** The optional exponent [[eE][-+]?[0-9]+]. *)
Definition scan_exp (s : string) : string * string :=
  match s with
  | String e rest =>
      if Ascii.eqb e "e" || Ascii.eqb e "E" then
        let (sign, rest') :=
          match rest with
          | String g r => if Ascii.eqb g "+" || Ascii.eqb g "-"
                          then (String g EmptyString, r) else (EmptyString, rest)
          | EmptyString => (EmptyString, rest)
          end in
        match take_digits rest' with
        | (EmptyString, _) => (EmptyString, s)
        | (ds, r) => (String e (sign ++ ds), r)
        end
      else (EmptyString, s)
  | EmptyString => (EmptyString, s)
  end.

(** A number at the head of [s]: an [int] when it has neither fraction nor
    exponent, a [float] otherwise.  An [int] of more than 4300 digits is
    refused, as the interpreter refuses to convert it. *)
Definition scan_number (s : string) : option (value * string) :=
  let (sign, body) :=
    match s with
    | String "-" rest => ("-", rest)
    | _ => (EmptyString, s)
    end in
  match scan_int_part body with
  | None => None
  | Some (ip, r1) =>
      let (frac, r2) := scan_frac r1 in
      let (ex, r3) := scan_exp r2 in
      match frac, ex with
      | EmptyString, EmptyString =>
          if (4300 <? N.of_nat (String.length ip))%N then None
          else
            Some (VInt (if String.eqb sign "-" then - digits_value ip
                        else digits_value ip)%Z, r3)
      | _, _ => Some (VFloat (sign ++ ip ++ frac ++ ex), r3)
      end
  end.

(** The word [w] at the head of [s]. *)
Definition expect (w : string) (v : value) (s : string) : option (value * string) :=
  if String.prefix w s
  then Some (v, String.substring (String.length w) (String.length s) s)
  else None.

(** [d[k] = v]: a key already present keeps its place. *)
Fixpoint dict_set (entries : list (string * value)) (k : string) (v : value)
  : list (string * value) :=
  match entries with
  | [] => [(k, v)]
  | (k', v') :: rest =>
      if String.eqb k' k then (k', v) :: rest else (k', v') :: dict_set rest k v
  end.

(** One JSON value at the head of [s].  [fuel] bounds the nesting and the
    number of elements; twice the length of the text is always enough. *)
Fixpoint scan_value (fuel : nat) (s : string) {struct fuel} : option (value * string) :=
  match fuel with
  | O => None
  | S fuel' =>
      let scan_elements :=
        fix scan_elements (n : nat) (acc : list value) (s : string) {struct n}
          : option (value * string) :=
          match n with
          | O => None
          | S n' =>
              match scan_value fuel' s with
              | None => None
              | Some (v, r) =>
                  match skip_ws r with
                  | String "," r' => scan_elements n' (acc ++ [v])%list (skip_ws r')
                  | String "]" r' => Some (VList (acc ++ [v])%list, r')
                  | _ => None
                  end
              end
          end in
      let scan_members :=
        fix scan_members (n : nat) (acc : list (string * value)) (s : string) {struct n}
          : option (value * string) :=
          match n with
          | O => None
          | S n' =>
              match s with
              | String q r0 =>
                  if Ascii.eqb q dquote then
                    match scan_string r0 with
                    | None => None
                    | Some (k, r1) =>
                        match skip_ws r1 with
                        | String ":" r2 =>
                            match scan_value fuel' (skip_ws r2) with
                            | None => None
                            | Some (v, r3) =>
                                match skip_ws r3 with
                                | String "," r4 =>
                                    scan_members n' (dict_set acc k v) (skip_ws r4)
                                | String "}" r4 => Some (VDict (dict_set acc k v), r4)
                                | _ => None
                                end
                            end
                        | _ => None
                        end
                    end
                  else None
              | EmptyString => None
              end
          end in
      match s with
      | EmptyString => None
      | String c rest =>
          if Ascii.eqb c dquote then
            match scan_string rest with
            | Some (body, r) => Some (VStr body, r)
            | None => None
            end
          else if Ascii.eqb c "{" then
            match skip_ws rest with
            | String "}" r => Some (VDict [], r)
            | r => scan_members fuel' [] r
            end
          else if Ascii.eqb c "[" then
            match skip_ws rest with
            | String "]" r => Some (VList [], r)
            | r => scan_elements fuel' [] r
            end
          else if String.prefix "null" s then expect "null" VNone s
          else if String.prefix "true" s then expect "true" (VBool true) s
          else if String.prefix "false" s then expect "false" (VBool false) s
          else
            match scan_number s with
            | Some r => Some r
            | None =>
                if String.prefix "NaN" s then expect "NaN" (VFloat "NaN") s
                else if String.prefix "Infinity" s then expect "Infinity" (VFloat "Infinity") s
                else expect "-Infinity" (VFloat "-Infinity") s
            end
      end
  end.

(** A whole text: one value between optional blanks. *)
Definition json_decode (s : string) : option value :=
  match scan_value (2 * String.length s + 2) (skip_ws s) with
  | Some (v, rest) =>
      match skip_ws rest with
      | EmptyString => Some v
      | _ => None
      end
  | None => None
  end.

(** A rendering of values in the manner of [repr]: exact on [None], the
    booleans, the integers and containers of them; a string is put between
    single quotes without escaping and a float is shown as it was written. *)
Fixpoint repr_plain (v : value) : string :=
  match v with
  | VNone => "None"
  | VBool true => "True"
  | VBool false => "False"
  | VInt n => NilZero.string_of_int (Z.to_int n)
  | VFloat literal => literal
  | VStr s => "'" ++ s ++ "'"
  | VList items =>
      "[" ++ (fix join (l : list value) : string :=
                match l with
                | [] => EmptyString
                | [x] => repr_plain x
                | x :: rest => repr_plain x ++ ", " ++ join rest
                end) items ++ "]"
  | VDict entries =>
      "{" ++ (fix join (l : list (string * value)) : string :=
                match l with
                | [] => EmptyString
                | [(k, x)] => "'" ++ k ++ "': " ++ repr_plain x
                | (k, x) :: rest => "'" ++ k ++ "': " ++ repr_plain x ++ ", " ++ join rest
                end) entries ++ "}"
  end.

(** A scripted gateway, as a test double is: it holds the outcomes still to
    be given, hands out the first at each call whatever the arguments, and
    raises once the script is used up. *)
Definition scripted_chat (c : ChatCall) (script : list (result string))
  : result string * list (result string) :=
  match script with
  | outcome :: rest => (outcome, rest)
  | [] => (Raise (mkExc "StopIteration" EmptyString), [])
  end.

(** The runtime of the scripted runs.  What it raises when a text does not
    decode or a response does not validate stands for the library's
    exception: the class and the text are not the library's own. *)
Definition scripted_runtime : Runtime := {|
  Gateway := list (result string);
  chat := scripted_chat;
  json_loads := fun s =>
    match json_decode s with
    | Some v => Ok v
    | None => Raise (mkExc "JSONDecodeError" "Expecting value")
    end;
  py_repr := repr_plain;
  validation_error_str := fun _ _ _ => "validation error for CodeConvertResponse"
|}.

Definition fresh_world (script : list (result string)) : @World scripted_runtime :=
  @mkWorld scripted_runtime script [].

(** Texts with double quotes in them. *)
Definition quoted (s : string) : string :=
  String dquote s ++ String dquote EmptyString.

(** The request and the two gateway answers of the end-to-end example. *)
Definition example_request : CodeConvertRequest :=
  CodeConvertRequest_new "print('hi')" (Some "Convert Python to Go").

Definition example_languages_text : string :=
  "{" ++ quoted "source_language" ++ ":" ++ quoted "python" ++ ","
      ++ quoted "target_language" ++ ":" ++ quoted "go" ++ "}".

Definition example_result_text : string :=
  "{" ++ quoted "code" ++ ":" ++ quoted ("fmt.Println(\" ++ quoted "hi\" ++ ")") ++ ","
      ++ quoted "language_specific_notes" ++ ":[" ++ quoted "Go requires explicit imports" ++ "],"
      ++ quoted "potential_compatibility_issues" ++ ":[]}".

Definition example_response : CodeConvertResponse :=
  {| resp_code := "fmt.Println(" ++ quoted "hi" ++ ")";
     language_specific_notes := ["Go requires explicit imports"];
     potential_compatibility_issues := [] |}.

(** The state the pipeline is in once the example's first answer is read. *)
Definition example_state : ConversionState :=
  {| st_code := "print('hi')";
     st_prompt := "Convert Python to Go";
     source_language := VStr "python";
     target_language := VStr "go";
     st_result := VDict [] |}.

(** The field [k] of a decoded object ([None] when there is none). *)
Definition field (j : value) (k : string) : value :=
  match j with
  | VDict entries =>
      match dict_get entries k with
      | Some v => v
      | None => VNone
      end
  | _ => VNone
  end.

(** The pipeline state with the outputs of stage 1 filled in. *)
Definition with_languages (state : ConversionState) (src tgt : value) : ConversionState :=
  {| st_code := st_code state;
     st_prompt := st_prompt state;
     source_language := src;
     target_language := tgt;
     st_result := st_result state |}.

(** The pipeline state with the output of stage 2 filled in. *)
Definition with_result (state : ConversionState) (parsed : value) : ConversionState :=
  {| st_code := st_code state;
     st_prompt := st_prompt state;
     source_language := source_language state;
     target_language := target_language state;
     st_result := parsed |}.

(** The world after one more call [c] answered with gateway state [g]. *)
Definition after_call `{Runtime} (w : World) (c : ChatCall) (g : Gateway) : World :=
  {| gw := g; calls := (calls w ++ [c])%list |}.

(** The ten names the analysis instruction spells out. *)
Definition instruction_names : list string :=
  [ "python"; "javascript"; "typescript"; "java"; "csharp";
    "go"; "rust"; "cpp"; "swift"; "kotlin" ].

(** The five items of the translation instruction. *)
Definition conversion_requirements : list string :=
  [ "1️⃣ Maintain the same functionality and logic";
    "2️⃣ Use idiomatic patterns and best practices of the target language";
    "3️⃣ Ensure the converted code is executable";
    "4️⃣ Provide any language-specific considerations";
    "5️⃣ Note potential compatibility issues" ].

(** ** Scripted runs and the causes of failure *)

(** The endpoint and the stages on the scripted runtime. *)
Definition scripted_endpoint (request : CodeConvertRequest) (script : list (result string)) :=
  @convert_code_endpoint scripted_runtime request (fresh_world script).

Definition scripted_extract (state : ConversionState) (script : list (result string)) :=
  @extract_languages scripted_runtime state (fresh_world script).

Definition scripted_convert (state : ConversionState) (script : list (result string)) :=
  @convert_code scripted_runtime state (fresh_world script).

(** The value the example's second answer decodes to. *)
Definition example_result_value : value :=
  VDict [("code", VStr (resp_code example_response));
         ("language_specific_notes", VList [VStr "Go requires explicit imports"]);
         ("potential_compatibility_issues", VList [])].

(** An answer naming a language outside the catalog, and a number. *)
Definition unlisted_languages_text : string :=
  "{" ++ quoted "source_language" ++ ":" ++ quoted "klingon" ++ ","
      ++ quoted "target_language" ++ ":42}".

(** An answer of stage 2 whose [code] is the escape of the lone surrogate
    U+D800, and the value it decodes to. *)
Definition surrogate_result_text : string :=
  "{" ++ quoted "code" ++ ":" ++ quoted "\ud800" ++ ","
      ++ quoted "language_specific_notes" ++ ":[],"
      ++ quoted "potential_compatibility_issues" ++ ":[]}".

Definition surrogate_result_value : value :=
  VDict [("code", VStr (utf8 55296));
         ("language_specific_notes", VList []);
         ("potential_compatibility_issues", VList [])].


(** The ways an exception arises in the [try] block, in the order the
    block runs: the gateway, the decoder and the two subscripts of stage 1;
    the gateway and the decoder of stage 2; the three subscripts of
    [result] and the validation of the response model. *)
Inductive pipeline_raises `{Runtime} (request : CodeConvertRequest) (w : World)
  : PyExc -> Prop :=
| extraction_gateway_fails (e : PyExc) (g : Gateway) :
    chat (extraction_call (initial_state request)) (gw w) = (Raise e, g) ->
    pipeline_raises request w e
| extraction_parse_fails (text : string) (g : Gateway) (e : PyExc) :
    chat (extraction_call (initial_state request)) (gw w) = (Ok text, g) ->
    json_loads text = Raise e ->
    pipeline_raises request w e
| extraction_source_missing (text : string) (g : Gateway) (j : value) (e : PyExc) :
    chat (extraction_call (initial_state request)) (gw w) = (Ok text, g) ->
    json_loads text = Ok j ->
    subscript j "source_language" = Raise e ->
    pipeline_raises request w e
| extraction_target_missing (text : string) (g : Gateway) (j src : value) (e : PyExc) :
    chat (extraction_call (initial_state request)) (gw w) = (Ok text, g) ->
    json_loads text = Ok j ->
    subscript j "source_language" = Ok src ->
    subscript j "target_language" = Raise e ->
    pipeline_raises request w e
| conversion_gateway_fails (s1 : ConversionState) (w1 : World) (e : PyExc) (g : Gateway) :
    extract_languages (initial_state request) w = (Ok s1, w1) ->
    chat (conversion_call s1) (gw w1) = (Raise e, g) ->
    pipeline_raises request w e
| conversion_parse_fails (s1 : ConversionState) (w1 : World) (text : string)
    (g : Gateway) (e : PyExc) :
    extract_languages (initial_state request) w = (Ok s1, w1) ->
    chat (conversion_call s1) (gw w1) = (Ok text, g) ->
    json_loads text = Raise e ->
    pipeline_raises request w e
| result_code_missing (s2 : ConversionState) (w2 : World) (e : PyExc) :
    invoke build_chain (initial_state request) w = (Ok s2, w2) ->
    subscript (st_result s2) "code" = Raise e ->
    pipeline_raises request w e
| result_notes_missing (s2 : ConversionState) (w2 : World) (code : value) (e : PyExc) :
    invoke build_chain (initial_state request) w = (Ok s2, w2) ->
    subscript (st_result s2) "code" = Ok code ->
    subscript (st_result s2) "language_specific_notes" = Raise e ->
    pipeline_raises request w e
| result_issues_missing (s2 : ConversionState) (w2 : World) (code notes : value)
    (e : PyExc) :
    invoke build_chain (initial_state request) w = (Ok s2, w2) ->
    subscript (st_result s2) "code" = Ok code ->
    subscript (st_result s2) "language_specific_notes" = Ok notes ->
    subscript (st_result s2) "potential_compatibility_issues" = Raise e ->
    pipeline_raises request w e
| result_invalid (s2 : ConversionState) (w2 : World) (code notes issues : value)
    (e : PyExc) :
    invoke build_chain (initial_state request) w = (Ok s2, w2) ->
    subscript (st_result s2) "code" = Ok code ->
    subscript (st_result s2) "language_specific_notes" = Ok notes ->
    subscript (st_result s2) "potential_compatibility_issues" = Ok issues ->
    CodeConvertResponse_new code notes issues = Raise e ->
    pipeline_raises request w e.

(** * Properties *)

(** ** The decoder and the scripted runtime at work *)

Example json_decode_languages :
  json_decode example_languages_text =
    Some (VDict [("source_language", VStr "python"); ("target_language", VStr "go")]).
Proof. vm_compute. reflexivity. Qed.

Example json_decode_result : json_decode example_result_text = Some example_result_value.
Proof. vm_compute. reflexivity. Qed.

Example json_decode_numbers :
  json_decode " [0, -12, 2.5e3, true, null] " =
    Some (VList [VInt 0; VInt (-12); VFloat "2.5e3"; VBool true; VNone]).
Proof. vm_compute. reflexivity. Qed.

Example json_decode_trailing_comma : json_decode "[1,]" = None.
Proof. vm_compute. reflexivity. Qed.

Example json_decode_not_json : json_decode "not json" = None.
Proof. vm_compute. reflexivity. Qed.

Example json_decode_surrogate : json_decode surrogate_result_text = Some surrogate_result_value.
Proof. vm_compute. reflexivity. Qed.

Example json_decode_surrogate_pair :
  json_decode (quoted "\ud83d\ude00") = Some (VStr "😀").
Proof. vm_compute. reflexivity. Qed.

Example lone_surrogate_found : has_lone_surrogate ("ab" ++ utf8 55296 ++ "c") = true.
Proof. vm_compute. reflexivity. Qed.

Example lone_surrogate_low_found : has_lone_surrogate (utf8 57343) = true.
Proof. vm_compute. reflexivity. Qed.

Example no_surrogate_in_text :
  has_lone_surrogate ("é 😀 " ++ utf8 55295 ++ utf8 57344) = false.
Proof. vm_compute. reflexivity. Qed.

Example scripted_endpoint_stop_iteration :
  fst (scripted_endpoint example_request []) =
    HTTPException 500 "Code conversion failed: generator raised StopIteration".
Proof. reflexivity. Qed.

Example scripted_endpoint_example :
  fst (scripted_endpoint example_request [Ok example_languages_text; Ok example_result_text])
  = Returned example_response.
Proof. reflexivity. Qed.

Example scripted_endpoint_two_calls :
  map call_temperature
    (calls (snd (scripted_endpoint example_request
                   [Ok example_languages_text; Ok example_result_text])))
  = [VInt 0; VFloat "0.3"].
Proof. reflexivity. Qed.

(** ** How the two stages and the chain run *)

Ltac run_monad := unfold bind, call_chat, lift, ret, raise, after_call.

(** Stage 1, step by step: the call, the parse and the two subscripts. *)
Lemma extract_languages_run `{Runtime} (state : ConversionState) (w : World) :
  extract_languages state w =
  let c := extraction_call state in
  match chat c (gw w) with
  | (Raise e, g) => (Raise e, after_call w c g)
  | (Ok text, g) =>
      match json_loads text with
      | Raise e => (Raise e, after_call w c g)
      | Ok j =>
          match subscript j "source_language" with
          | Raise e => (Raise e, after_call w c g)
          | Ok src =>
              match subscript j "target_language" with
              | Raise e => (Raise e, after_call w c g)
              | Ok tgt => (Ok (with_languages state src tgt), after_call w c g)
              end
          end
      end
  end.
Proof.
  unfold extract_languages; run_monad; cbv zeta.
  destruct (chat (extraction_call state) (gw w)) as [[text | e] g]; [ | reflexivity ].
  destruct (json_loads text) as [j | e]; [ | reflexivity ].
  destruct (subscript j "source_language") as [src | e]; [ | reflexivity ].
  destruct (subscript j "target_language") as [tgt | e]; reflexivity.
Qed.

(** Stage 2, step by step: the call and the parse. *)
Lemma convert_code_run `{Runtime} (state : ConversionState) (w : World) :
  convert_code state w =
  let c := conversion_call state in
  match chat c (gw w) with
  | (Raise e, g) => (Raise e, after_call w c g)
  | (Ok text, g) =>
      match json_loads text with
      | Raise e => (Raise e, after_call w c g)
      | Ok j => (Ok (with_result state j), after_call w c g)
      end
  end.
Proof.
  unfold convert_code; run_monad; cbv zeta.
  destruct (chat (conversion_call state) (gw w)) as [[text | e] g]; [ | reflexivity ].
  destruct (json_loads text) as [j | e]; reflexivity.
Qed.

(** Each stage calls the gateway once, whatever comes of it. *)
Lemma extract_languages_calls `{Runtime} (state : ConversionState) (w : World) :
  calls (snd (extract_languages state w)) = (calls w ++ [extraction_call state])%list.
Proof.
  rewrite extract_languages_run; cbv zeta.
  destruct (chat (extraction_call state) (gw w)) as [[text | e] g]; [ | reflexivity ].
  destruct (json_loads text) as [j | e]; [ | reflexivity ].
  destruct (subscript j "source_language") as [src | e]; [ | reflexivity ].
  destruct (subscript j "target_language") as [tgt | e]; reflexivity.
Qed.

Lemma convert_code_calls `{Runtime} (state : ConversionState) (w : World) :
  calls (snd (convert_code state w)) = (calls w ++ [conversion_call state])%list.
Proof.
  rewrite convert_code_run; cbv zeta.
  destruct (chat (conversion_call state) (gw w)) as [[text | e] g]; [ | reflexivity ].
  destruct (json_loads text) as [j | e]; reflexivity.
Qed.

(** The compiled chain is the first stage followed by the second, each run
    inside the engine's generator. *)
Lemma invoke_build_chain `{Runtime} (state : ConversionState) (w : World) :
  invoke build_chain state w =
  match extract_languages state w with
  | (Ok s1, w1) => in_generator (convert_code s1) w1
  | (Raise e, w1) => (Raise (generator_raise e), w1)
  end.
Proof.
  unfold invoke, recursion_limit, build_chain; cbn.
  unfold bind at 1. unfold in_generator at 1.
  destruct (extract_languages state w) as [[s1 | e] w1]; [ | reflexivity ].
  unfold bind at 1. unfold in_generator.
  destruct (convert_code s1 w1) as [[s2 | e] w2]; reflexivity.
Qed.

(** Only a [StopIteration] is changed on its way out of the generator. *)
Lemma generator_raise_other (e : PyExc) :
  exc_class e <> "StopIteration" -> generator_raise e = e.
Proof.
  intros Hne. unfold generator_raise.
  destruct (String.eqb (exc_class e) "StopIteration") eqn:E; [ | reflexivity ].
  apply String.eqb_eq in E. contradiction.
Qed.

(** The [try] block, step by step. *)
Lemma try_body_run `{Runtime} (request : CodeConvertRequest) (w : World) :
  try_body request w =
  match invoke build_chain (initial_state request) w with
  | (Raise e, w2) => (Raise e, w2)
  | (Ok final_state, w2) =>
      match subscript (st_result final_state) "code" with
      | Raise e => (Raise e, w2)
      | Ok code =>
          match subscript (st_result final_state) "language_specific_notes" with
          | Raise e => (Raise e, w2)
          | Ok notes =>
              match subscript (st_result final_state) "potential_compatibility_issues" with
              | Raise e => (Raise e, w2)
              | Ok issues => (CodeConvertResponse_new code notes issues, w2)
              end
          end
      end
  end.
Proof.
  unfold try_body; run_monad.
  destruct (invoke build_chain (initial_state request) w) as [[s2 | e] w2]; [ | reflexivity ].
  destruct (subscript (st_result s2) "code") as [code | e]; [ | reflexivity ].
  destruct (subscript (st_result s2) "language_specific_notes") as [notes | e]; [ | reflexivity ].
  destruct (subscript (st_result s2) "potential_compatibility_issues"); reflexivity.
Qed.

(** ** What the two schemas accept *)

Lemma value_eqb_str (x : value) (s : string) :
  value_eqb x (VStr s) = true -> x = VStr s.
Proof.
  destruct x; simpl; try discriminate.
  intros E; apply String.eqb_eq in E; now subst.
Qed.

(** The catalog has 39 members, all listed, with pairwise distinct values. *)
Lemma all_languages_complete (lang : ProgrammingLanguage) : In lang all_languages.
Proof. destruct lang; simpl; tauto. Qed.

Lemma catalog_values_length : length catalog_values = 39%nat.
Proof. reflexivity. Qed.

Lemma catalog_values_NoDup : NoDup catalog_values.
Proof.
  unfold catalog_values, all_languages; simpl.
  repeat (constructor; [ simpl; intuition discriminate | ]).
  constructor.
Qed.

(** The [enum] of a language property accepts the catalog and nothing
    else. *)
Lemma language_enum_member (x : value) :
  existsb (value_eqb x) (map VStr catalog_values) = true <->
  exists lang : ProgrammingLanguage, x = VStr (lang_value lang).
Proof.
  split.
  - intros E. apply existsb_exists in E. destruct E as (y & Hin & Heq).
    apply in_map_iff in Hin. destruct Hin as (s & <- & Hs).
    apply in_map_iff in Hs. destruct Hs as (lang & <- & _).
    exists lang. now apply value_eqb_str.
  - intros (lang & ->). destruct lang; reflexivity.
Qed.

Lemma language_enum_schema_accepts (x : value) :
  conforms language_enum_schema x = true <->
  exists lang : ProgrammingLanguage, x = VStr (lang_value lang).
Proof.
  unfold language_enum_schema. cbn -[catalog_values existsb].
  rewrite andb_true_r, andb_true_iff, language_enum_member.
  split.
  - now intros [_ E].
  - intros (lang & ->). split; [ reflexivity | now exists lang ].
Qed.

(** The schema of stage 1 accepts exactly the objects whose
    [source_language] and [target_language] are catalog members. *)
Lemma extraction_schema_accepts (j : value) :
  conforms extraction_response_format j = true <->
  exists entries (src tgt : ProgrammingLanguage),
    j = VDict entries /\
    dict_get entries "source_language" = Some (VStr (lang_value src)) /\
    dict_get entries "target_language" = Some (VStr (lang_value tgt)).
Proof.
  split.
  - intros Hc. destruct j; try discriminate Hc.
    cbn -[catalog_values existsb] in Hc.
    destruct (dict_get entries "source_language") as [x | ] eqn:Gs,
             (dict_get entries "target_language") as [y | ] eqn:Gt;
      try (rewrite ?andb_true_l, ?andb_false_l, ?andb_false_r in Hc; discriminate Hc).
    rewrite !andb_true_r, !andb_true_iff in Hc.
    destruct Hc as [[_ Hx] [_ Hy]].
    apply language_enum_member in Hx, Hy.
    destruct Hx as (src & ->), Hy as (tgt & ->).
    now exists entries, src, tgt.
  - intros (entries & src & tgt & -> & Hs & Ht).
    cbn -[catalog_values existsb]. rewrite Hs, Ht.
    assert (Es : existsb (value_eqb (VStr (lang_value src))) (map VStr catalog_values) = true)
      by (apply language_enum_member; now exists src).
    assert (Et : existsb (value_eqb (VStr (lang_value tgt))) (map VStr catalog_values) = true)
      by (apply language_enum_member; now exists tgt).
    rewrite Es, Et. reflexivity.
Qed.

Lemma string_items_accepts (xs : list value) :
  forallb (conforms (VDict [("type", VStr "string")])) xs = true <->
  exists l : list string, xs = map VStr l.
Proof.
  split.
  - induction xs as [ | x xs IH]; intros E.
    + now exists [].
    + simpl in E. apply andb_true_iff in E. destruct E as [Ex Exs].
      destruct (IH Exs) as (l & ->).
      destruct x; try discriminate Ex.
      now exists (s :: l).
  - intros (l & ->). induction l as [ | s l IH]; [ reflexivity | ].
    simpl. exact IH.
Qed.

(** The schema of stage 2 accepts exactly the objects with a string [code]
    and two lists of strings. *)
Lemma conversion_schema_accepts (j : value) :
  conforms conversion_response_format j = true <->
  exists entries (code : string) (notes issues : list string),
    j = VDict entries /\
    dict_get entries "code" = Some (VStr code) /\
    dict_get entries "language_specific_notes" = Some (VList (map VStr notes)) /\
    dict_get entries "potential_compatibility_issues" = Some (VList (map VStr issues)).
Proof.
  split.
  - intros Hc. destruct j; try discriminate Hc.
    cbn in Hc.
    destruct (dict_get entries "code") as [x | ] eqn:Gc,
             (dict_get entries "language_specific_notes") as [y | ] eqn:Gn,
             (dict_get entries "potential_compatibility_issues") as [z | ] eqn:Gi;
      try (rewrite ?andb_true_l, ?andb_false_l, ?andb_false_r in Hc; discriminate Hc).
    rewrite !andb_true_r, !andb_true_iff in Hc.
    destruct Hc as [Hx [[Hy Hys] [Hz Hzs]]].
    destruct x; try discriminate Hx.
    destruct y; try discriminate Hy.
    destruct z; try discriminate Hz.
    apply (proj1 (string_items_accepts _)) in Hys, Hzs.
    destruct Hys as (notes & ->), Hzs as (issues & ->).
    now exists entries, s, notes, issues.
  - intros (entries & code & notes & issues & -> & Hc & Hn & Hi).
    cbn. rewrite Hc, Hn, Hi.
    pose proof (proj2 (string_items_accepts (map VStr notes))) as En.
    pose proof (proj2 (string_items_accepts (map VStr issues))) as Ei.
    cbn in En, Ei |- *.
    rewrite En, Ei by eauto. reflexivity.
Qed.

(** ** The gateway calls of the two stages *)

(** The two stages on the answers of the example. *)
Lemma example_extract_run :
  scripted_extract (initial_state example_request) [Ok example_languages_text] =
    (Ok example_state,
     @mkWorld scripted_runtime [] [extraction_call (initial_state example_request)]).
Proof. reflexivity. Qed.

Lemma example_convert_run :
  scripted_convert example_state [Ok example_result_text] =
    (Ok (with_result example_state example_result_value),
     @mkWorld scripted_runtime [] [@conversion_call scripted_runtime example_state]).
Proof. reflexivity. Qed.

(** C5: for every pipeline state, the extraction stage calls the gateway
    exactly once, with temperature 0 and a schema that accepts exactly the
    objects having both [source_language] and [target_language], each a
    member of the language catalog; when the gateway answers with a text
    that parses and has the two keys, their values are written into the
    state. *)
Theorem extract_languages_contract `{Runtime} (state : ConversionState) (w : World) :
  calls (snd (extract_languages state w)) = (calls w ++ [extraction_call state])%list /\
  call_prompt (extraction_call state) = extraction_prompt state /\
  call_temperature (extraction_call state) = VInt 0 /\
  (forall j : value,
     conforms (call_response_format (extraction_call state)) j = true <->
     exists entries (src tgt : ProgrammingLanguage),
       j = VDict entries /\
       dict_get entries "source_language" = Some (VStr (lang_value src)) /\
       dict_get entries "target_language" = Some (VStr (lang_value tgt))) /\
  (forall (text : string) (g : Gateway) (j src tgt : value),
     chat (extraction_call state) (gw w) = (Ok text, g) ->
     json_loads text = Ok j ->
     subscript j "source_language" = Ok src ->
     subscript j "target_language" = Ok tgt ->
     extract_languages state w =
       (Ok (with_languages state src tgt), after_call w (extraction_call state) g)).
Proof.
  split; [ apply extract_languages_calls | ].
  split; [ reflexivity | ].
  split; [ reflexivity | ].
  split; [ intro j; apply extraction_schema_accepts | ].
  intros text g j src tgt Hchat Hjson Hsrc Htgt.
  rewrite extract_languages_run; cbv zeta.
  now rewrite Hchat, Hjson, Hsrc, Htgt.
Qed.

Lemma extract_languages_contract_witness :
  scripted_extract (initial_state example_request) [Ok example_languages_text] =
    (Ok example_state,
     @mkWorld scripted_runtime []
       [extraction_call (initial_state example_request)]).
Proof.
  unfold scripted_extract.
  refine (proj2 (proj2 (proj2 (proj2
    (@extract_languages_contract scripted_runtime (initial_state example_request)
       (fresh_world [Ok example_languages_text])))))
    example_languages_text []
    (VDict [("source_language", VStr "python"); ("target_language", VStr "go")])
    (VStr "python") (VStr "go") _ _ _ _);
  vm_compute; reflexivity.
Defined.

(** C6: for every pipeline state, the conversion stage calls the gateway
    exactly once, at temperature 0.3 and with a schema that accepts exactly
    the objects having a string [code] and two lists of strings
    [language_specific_notes] and [potential_compatibility_issues]; when the
    gateway answers with a text that parses, the parsed value is stored in
    the [result] field. *)
Theorem convert_code_contract `{Runtime} (state : ConversionState) (w : World) :
  calls (snd (convert_code state w)) = (calls w ++ [conversion_call state])%list /\
  call_prompt (conversion_call state) = conversion_prompt state /\
  call_temperature (conversion_call state) = VFloat "0.3" /\
  (forall j : value,
     conforms (call_response_format (conversion_call state)) j = true <->
     exists entries (code : string) (notes issues : list string),
       j = VDict entries /\
       dict_get entries "code" = Some (VStr code) /\
       dict_get entries "language_specific_notes" = Some (VList (map VStr notes)) /\
       dict_get entries "potential_compatibility_issues" = Some (VList (map VStr issues))) /\
  (forall (text : string) (g : Gateway) (j : value),
     chat (conversion_call state) (gw w) = (Ok text, g) ->
     json_loads text = Ok j ->
     convert_code state w =
       (Ok (with_result state j), after_call w (conversion_call state) g) /\
     st_result (with_result state j) = j).
Proof.
  split; [ apply convert_code_calls | ].
  split; [ reflexivity | ].
  split; [ reflexivity | ].
  split; [ intro j; apply conversion_schema_accepts | ].
  intros text g j Hchat Hjson.
  rewrite convert_code_run; cbv zeta.
  now rewrite Hchat, Hjson.
Qed.

Lemma convert_code_contract_witness :
  fst (scripted_convert example_state [Ok example_result_text]) =
    Ok (with_result example_state
          (VDict [("code", VStr (resp_code example_response));
                  ("language_specific_notes", VList [VStr "Go requires explicit imports"]);
                  ("potential_compatibility_issues", VList [])])).
Proof.
  unfold scripted_convert.
  destruct (@convert_code_contract scripted_runtime example_state
              (fresh_world [Ok example_result_text])) as (_ & _ & _ & _ & Hstore).
  destruct (Hstore example_result_text []
              (VDict [("code", VStr (resp_code example_response));
                      ("language_specific_notes", VList [VStr "Go requires explicit imports"]);
                      ("potential_compatibility_issues", VList [])]))
    as [Hrun _]; [ reflexivity | vm_compute; reflexivity | ].
  rewrite Hrun. reflexivity.
Defined.

(** C9: the extraction stage does not check catalog membership.  Whenever
    the gateway's answer parses as an object with the keys
    [source_language] and [target_language], the stage succeeds and writes
    the two values into the state, whatever they are; and an exception that
    leaves the stage is the gateway's, the decoder's, or the [KeyError] or
    [TypeError] of one of the two subscripts, never an error about an
    unrecognised language. *)
Theorem extract_languages_trusts_gateway `{Runtime} (state : ConversionState) (w : World) :
  (forall (text : string) (g : Gateway) (entries : list (string * value)) (src tgt : value),
     chat (extraction_call state) (gw w) = (Ok text, g) ->
     json_loads text = Ok (VDict entries) ->
     dict_get entries "source_language" = Some src ->
     dict_get entries "target_language" = Some tgt ->
     extract_languages state w =
       (Ok (with_languages state src tgt), after_call w (extraction_call state) g)) /\
  (forall (e : PyExc) (w' : World),
     extract_languages state w = (Raise e, w') ->
     (exists g, chat (extraction_call state) (gw w) = (Raise e, g)) \/
     (exists text g,
        chat (extraction_call state) (gw w) = (Ok text, g) /\
        (json_loads text = Raise e \/
         exists j key,
           json_loads text = Ok j /\
           (key = "source_language" \/ key = "target_language") /\
           subscript j key = Raise e /\
           (exc_class e = "KeyError" \/ exc_class e = "TypeError")))).
Proof.
  split.
  - intros text g entries src tgt Hchat Hjson Hsrc Htgt.
    rewrite extract_languages_run; cbv zeta.
    rewrite Hchat, Hjson. simpl. now rewrite Hsrc, Htgt.
  - intros e w'. rewrite extract_languages_run; cbv zeta.
    assert (Hsub : forall j key e', subscript j key = Raise e' ->
              exc_class e' = "KeyError" \/ exc_class e' = "TypeError").
    { intros j key e' Hs. destruct j; simpl in Hs;
        try (injection Hs as <-; simpl; tauto).
      destruct (dict_get entries key); [ discriminate Hs | ].
      injection Hs as <-; simpl; tauto. }
    destruct (chat (extraction_call state) (gw w)) as [[text | e0] g].
    + destruct (json_loads text) as [j | e0] eqn:Hjson.
      * destruct (subscript j "source_language") as [src | e0] eqn:Hsrc.
        -- destruct (subscript j "target_language") as [tgt | e0] eqn:Htgt;
             [ discriminate | ].
           intros [= <- <-]. right. exists text, g. split; [ reflexivity | ].
           right. exists j, "target_language". eauto 10.
        -- intros [= <- <-]. right. exists text, g. split; [ reflexivity | ].
           right. exists j, "source_language". eauto 10.
      * intros [= <- <-]. right. exists text, g. split; [ reflexivity | ]. now left.
    + intros [= <- <-]. left. now exists g.
Qed.

Lemma extract_languages_trusts_gateway_witness :
  ~ In "klingon" catalog_values /\
  fst (scripted_extract (initial_state example_request) [Ok unlisted_languages_text]) =
    Ok (with_languages (initial_state example_request) (VStr "klingon") (VInt 42)).
Proof.
  split.
  - vm_compute. intuition discriminate.
  - unfold scripted_extract.
    destruct (@extract_languages_trusts_gateway scripted_runtime
                (initial_state example_request)
                (fresh_world [Ok unlisted_languages_text])) as [Hwrite _].
    rewrite (Hwrite unlisted_languages_text []
               [("source_language", VStr "klingon"); ("target_language", VInt 42)]
               (VStr "klingon") (VInt 42));
      [ reflexivity | reflexivity | vm_compute; reflexivity | reflexivity | reflexivity ].
Defined.

(** C10: each stage leaves the fields of the other alone.  The state
    returned by the extraction stage has the [code], [prompt] and [result]
    of its input, and the state returned by the conversion stage has the
    [code], [prompt], [source_language] and [target_language] of its
    input. *)
Theorem stages_preserve_other_fields `{Runtime} (state : ConversionState) (w : World) :
  (forall (s' : ConversionState) (w' : World),
     extract_languages state w = (Ok s', w') ->
     st_code s' = st_code state /\
     st_prompt s' = st_prompt state /\
     st_result s' = st_result state) /\
  (forall (s' : ConversionState) (w' : World),
     convert_code state w = (Ok s', w') ->
     st_code s' = st_code state /\
     st_prompt s' = st_prompt state /\
     source_language s' = source_language state /\
     target_language s' = target_language state).
Proof.
  split; intros s' w'.
  - rewrite extract_languages_run; cbv zeta.
    destruct (chat (extraction_call state) (gw w)) as [[text | e] g]; [ | discriminate ].
    destruct (json_loads text) as [j | e]; [ | discriminate ].
    destruct (subscript j "source_language") as [src | e]; [ | discriminate ].
    destruct (subscript j "target_language") as [tgt | e]; [ | discriminate ].
    intros [= <- _]. repeat split.
  - rewrite convert_code_run; cbv zeta.
    destruct (chat (conversion_call state) (gw w)) as [[text | e] g]; [ | discriminate ].
    destruct (json_loads text) as [j | e]; [ | discriminate ].
    intros [= <- _]. repeat split.
Qed.

Lemma stages_preserve_other_fields_witness :
  (exists s' w',
     scripted_extract (initial_state example_request) [Ok example_languages_text] = (Ok s', w') /\
     st_code s' = "print('hi')" /\ st_prompt s' = "Convert Python to Go" /\
     st_result s' = VDict []) /\
  (exists s' w',
     scripted_convert example_state [Ok example_result_text] = (Ok s', w') /\
     st_code s' = "print('hi')" /\ st_prompt s' = "Convert Python to Go" /\
     source_language s' = VStr "python" /\ target_language s' = VStr "go").
Proof.
  split.
  - eexists _, _. split; [ exact example_extract_run | ].
    exact (proj1 (@stages_preserve_other_fields scripted_runtime
                    (initial_state example_request)
                    (fresh_world [Ok example_languages_text]))
             _ _ example_extract_run).
  - eexists _, _. split; [ exact example_convert_run | ].
    exact (proj2 (@stages_preserve_other_fields scripted_runtime example_state
                    (fresh_world [Ok example_result_text]))
             _ _ example_convert_run).
Defined.

(** ** The request *)

(** C4: a request body without [prompt] is handled exactly as the same body
    with [prompt] set to "Convert the code to the target language.": the
    same outcome, the same gateway calls and the same gateway state. *)
Theorem omitted_prompt_is_default `{Runtime} (code : string) (w : World) :
  convert_code_endpoint (CodeConvertRequest_new code None) w =
  convert_code_endpoint
    (CodeConvertRequest_new code (Some "Convert the code to the target language.")) w.
Proof.
  unfold CodeConvertRequest_new, default_prompt. reflexivity.
Qed.

(** ** The endpoint *)

Lemma as_str_items_map (l : list string) : as_str_items (map VStr l) = Some l.
Proof.
  induction l as [ | s l IH]; [ reflexivity | ].
  simpl. now rewrite IH.
Qed.

Lemma subscript_present `{Runtime} (entries : list (string * value)) (k : string) (v : value) :
  dict_get entries k = Some v -> subscript (VDict entries) k = Ok v.
Proof. intros E. simpl. now rewrite E. Qed.

Lemma field_present (entries : list (string * value)) (k : string) (v : value) :
  dict_get entries k = Some v -> field (VDict entries) k = v.
Proof. intros E. simpl. now rewrite E. Qed.

(** A subscript raises a [KeyError] or a [TypeError], and the response
    model a [ValidationError]: none of them is a [StopIteration]. *)
Lemma subscript_raises_class `{Runtime} (v : value) (k : string) (e : PyExc) :
  subscript v k = Raise e -> exc_class e = "KeyError" \/ exc_class e = "TypeError".
Proof.
  intros Hs. destruct v; simpl in Hs; try (injection Hs as <-; simpl; tauto).
  destruct (dict_get entries k); [ discriminate Hs | ].
  injection Hs as <-; simpl; tauto.
Qed.

Lemma generator_raise_subscript `{Runtime} (v : value) (k : string) (e : PyExc) :
  subscript v k = Raise e -> generator_raise e = e.
Proof.
  intros Hs. apply generator_raise_other.
  destruct (subscript_raises_class _ _ _ Hs) as [E | E]; rewrite E; discriminate.
Qed.

Lemma generator_raise_validation `{Runtime} (code notes issues : value) (e : PyExc) :
  CodeConvertResponse_new code notes issues = Raise e -> generator_raise e = e.
Proof.
  unfold CodeConvertResponse_new. intros Hv. apply generator_raise_other.
  destruct (as_str code), (as_str_list notes), (as_str_list issues);
    try discriminate Hv; injection Hv as <-; discriminate.
Qed.

(** An exception raised at one of the causes leaves the [try] block as it
    leaves the engine's generator. *)
Lemma pipeline_raises_try_body `{Runtime} (request : CodeConvertRequest) (w : World)
  (e : PyExc) :
  pipeline_raises request w e ->
  exists w', try_body request w = (Raise (generator_raise e), w').
Proof.
  intros Hr. rewrite try_body_run.
  destruct Hr as [ e g Hc | text g e Hc Hj | text g j e Hc Hj Hs | text g j src e Hc Hj Hs Ht
                 | s1 w1 e g He Hc | s1 w1 text g e He Hc Hj
                 | s2 w2 e Hi Hk | s2 w2 code e Hi Hk Hn | s2 w2 code notes e Hi Hk Hn Hp
                 | s2 w2 code notes issues e Hi Hk Hn Hp Hv ].
  - rewrite invoke_build_chain, extract_languages_run; cbv zeta. rewrite Hc. eauto.
  - rewrite invoke_build_chain, extract_languages_run; cbv zeta. rewrite Hc, Hj. eauto.
  - rewrite invoke_build_chain, extract_languages_run; cbv zeta. rewrite Hc, Hj, Hs. eauto.
  - rewrite invoke_build_chain, extract_languages_run; cbv zeta.
    rewrite Hc, Hj, Hs, Ht. eauto.
  - rewrite invoke_build_chain, He. unfold in_generator.
    rewrite convert_code_run; cbv zeta. rewrite Hc. eauto.
  - rewrite invoke_build_chain, He. unfold in_generator.
    rewrite convert_code_run; cbv zeta. rewrite Hc, Hj. eauto.
  - rewrite Hi, Hk, (generator_raise_subscript _ _ _ Hk). eauto.
  - rewrite Hi, Hk, Hn, (generator_raise_subscript _ _ _ Hn). eauto.
  - rewrite Hi, Hk, Hn, Hp, (generator_raise_subscript _ _ _ Hp). eauto.
  - rewrite Hi, Hk, Hn, Hp, Hv, (generator_raise_validation _ _ _ _ Hv). eauto.
Qed.

(** Conversely an exception of the [try] block arose at one of the
    causes. *)
Lemma try_body_pipeline_raises `{Runtime} (request : CodeConvertRequest) (w w' : World)
  (e : PyExc) :
  try_body request w = (Raise e, w') ->
  exists e0 : PyExc, pipeline_raises request w e0 /\ e = generator_raise e0.
Proof.
  rewrite try_body_run.
  destruct (invoke build_chain (initial_state request) w) as [[s2 | e2] w2] eqn:Hi.
  - destruct (subscript (st_result s2) "code") as [code | e0] eqn:Hk.
    2:{ intros [= <- _]. exists e0. split; [ eapply result_code_missing; eauto | ].
        symmetry. eapply generator_raise_subscript; eauto. }
    destruct (subscript (st_result s2) "language_specific_notes") as [notes | e0] eqn:Hn.
    2:{ intros [= <- _]. exists e0. split; [ eapply result_notes_missing; eauto | ].
        symmetry. eapply generator_raise_subscript; eauto. }
    destruct (subscript (st_result s2) "potential_compatibility_issues")
      as [issues | e0] eqn:Hp.
    2:{ intros [= <- _]. exists e0. split; [ eapply result_issues_missing; eauto | ].
        symmetry. eapply generator_raise_subscript; eauto. }
    intros [= Hv _]. exists e. split; [ eapply result_invalid; eauto | ].
    symmetry. eapply generator_raise_validation; eauto.
  - intros [= <- _]. clear w'.
    rewrite invoke_build_chain in Hi.
    destruct (extract_languages (initial_state request) w) as [[s1 | e1] w1] eqn:He.
    + unfold in_generator in Hi.
      rewrite convert_code_run in Hi; cbv zeta in Hi.
      destruct (chat (conversion_call s1) (gw w1)) as [[text | e0] g] eqn:Hc.
      * destruct (json_loads text) as [j | e0] eqn:Hj; [ discriminate Hi | ].
        injection Hi as <- _. exists e0. split; [ | reflexivity ].
        eapply conversion_parse_fails; eauto.
      * injection Hi as <- _. exists e0. split; [ | reflexivity ].
        eapply conversion_gateway_fails; eauto.
    + injection Hi as <- _. exists e1. split; [ | reflexivity ].
      rewrite extract_languages_run in He; cbv zeta in He.
      destruct (chat (extraction_call (initial_state request)) (gw w))
        as [[text | e0] g] eqn:Hc.
      * destruct (json_loads text) as [j | e0] eqn:Hj.
        -- destruct (subscript j "source_language") as [src | e0] eqn:Hs.
           ++ destruct (subscript j "target_language") as [tgt | e0] eqn:Ht;
                [ discriminate He | ].
              injection He as <- _. eapply extraction_target_missing; eauto.
           ++ injection He as <- _. eapply extraction_source_missing; eauto.
        -- injection He as <- _. eapply extraction_parse_fails; eauto.
      * injection He as <- _. eapply extraction_gateway_fails; eauto.
Qed.




(** C2, as the code has it: every exception of the [try] block ends in an
    [HTTPException] with status 500 and detail "Code conversion failed: "
    followed by the text of the exception that reaches the handler.  That
    is the exception raised (by the gateway call of either stage, the
    decoding of either answer, a subscript of the decoded value or of
    [result], the validation of the response), except that a
    [StopIteration] raised inside a stage reaches the handler as the
    [RuntimeError] "generator raised StopIteration".  A response is
    returned only when the whole block ran without exception, and the
    status is 200 or 500. *)
Theorem endpoint_failure_is_500 `{Runtime} (request : CodeConvertRequest) (w : World) :
  (forall e : PyExc,
     pipeline_raises request w e ->
     fst (convert_code_endpoint request w) =
       HTTPException 500 ("Code conversion failed: " ++ exc_str (generator_raise e))) /\
  (forall e : PyExc,
     pipeline_raises request w e ->
     exc_class e <> "StopIteration" ->
     fst (convert_code_endpoint request w) =
       HTTPException 500 ("Code conversion failed: " ++ exc_str e)) /\
  (forall (e : PyExc) (w' : World),
     try_body request w = (Raise e, w') ->
     convert_code_endpoint request w =
       (HTTPException 500 ("Code conversion failed: " ++ exc_str e), w') /\
     exists e0 : PyExc, pipeline_raises request w e0 /\ e = generator_raise e0) /\
  (forall (response : CodeConvertResponse) (w' : World),
     convert_code_endpoint request w = (Returned response, w') ->
     try_body request w = (Ok response, w') /\
     forall e, ~ pipeline_raises request w e) /\
  (http_status (fst (convert_code_endpoint request w)) = 200%Z \/
   http_status (fst (convert_code_endpoint request w)) = 500%Z).
Proof.
  unfold convert_code_endpoint.
  split; [ | split; [ | split; [ | split ] ] ].
  - intros e Hr. destruct (pipeline_raises_try_body _ _ _ Hr) as (w' & ->). reflexivity.
  - intros e Hr Hne. destruct (pipeline_raises_try_body _ _ _ Hr) as (w' & ->).
    now rewrite (generator_raise_other _ Hne).
  - intros e w' Hrun. split.
    + now rewrite Hrun.
    + now apply try_body_pipeline_raises with w'.
  - intros response w' Hrun.
    destruct (try_body request w) as [[r | e0] w2] eqn:Htry; [ | discriminate Hrun ].
    injection Hrun as -> ->. split; [ reflexivity | ].
    intros e Hr. destruct (pipeline_raises_try_body _ _ _ Hr) as (w2 & E).
    rewrite E in Htry. discriminate Htry.
  - destruct (try_body request w) as [[r | e] w2]; cbn [fst http_status].
    + destruct (serialisable r); [ left | right ]; reflexivity.
    + right; reflexivity.
Qed.

Lemma endpoint_failure_is_500_witness :
  fst (scripted_endpoint example_request
         [Raise (mkExc "ConnectionError" "gateway unreachable")]) =
    HTTPException 500 "Code conversion failed: gateway unreachable".
Proof.
  unfold scripted_endpoint.
  rewrite (proj1 (proj2 (@endpoint_failure_is_500 scripted_runtime example_request
                    (fresh_world [Raise (mkExc "ConnectionError" "gateway unreachable")])))
             (mkExc "ConnectionError" "gateway unreachable")).
  - reflexivity.
  - apply (@extraction_gateway_fails scripted_runtime example_request
             (fresh_world [Raise (mkExc "ConnectionError" "gateway unreachable")])
             (mkExc "ConnectionError" "gateway unreachable") []).
    reflexivity.
  - discriminate.
Defined.

(** C2 as stated fails: the gateway call of stage 1 raises a
    [StopIteration] with the text "script used up", and the detail of the
    500 is not that text but the text of the [RuntimeError] the exception
    has become. *)
Lemma stop_iteration_text_is_replaced :
  @pipeline_raises scripted_runtime example_request
    (fresh_world [Raise (mkExc "StopIteration" "script used up")])
    (mkExc "StopIteration" "script used up") /\
  fst (scripted_endpoint example_request
         [Raise (mkExc "StopIteration" "script used up")]) =
    HTTPException 500 "Code conversion failed: generator raised StopIteration" /\
  fst (scripted_endpoint example_request
         [Raise (mkExc "StopIteration" "script used up")]) <>
    HTTPException 500
      ("Code conversion failed: " ++ exc_str (mkExc "StopIteration" "script used up")).
Proof.
  split; [ | split ].
  - apply (@extraction_gateway_fails scripted_runtime example_request
             (fresh_world [Raise (mkExc "StopIteration" "script used up")])
             (mkExc "StopIteration" "script used up") []).
    reflexivity.
  - reflexivity.
  - intros E. vm_compute in E. discriminate E.
Qed.

(** C3, as the code has it: stage 1 runs first and stage 2 starts from the
    state stage 1 returned.  When stage 1 raises, whatever the cause, the
    endpoint answers 500 and the gateway has been called exactly once, by
    stage 1: stage 2 never calls it.  When stage 1 returns, the gateway is
    called exactly twice, first by stage 1 and then by stage 2, also on
    runs that fail afterwards. *)
Theorem conversion_waits_for_extraction `{Runtime} (request : CodeConvertRequest)
  (w : World) :
  (forall (e : PyExc) (w1 : World),
     extract_languages (initial_state request) w = (Raise e, w1) ->
     (exists detail : string,
        convert_code_endpoint request w = (HTTPException 500 detail, w1)) /\
     http_status (fst (convert_code_endpoint request w)) = 500%Z /\
     calls w1 = (calls w ++ [extraction_call (initial_state request)])%list) /\
  (forall (s1 : ConversionState) (w1 : World),
     extract_languages (initial_state request) w = (Ok s1, w1) ->
     calls w1 = (calls w ++ [extraction_call (initial_state request)])%list /\
     calls (snd (convert_code_endpoint request w)) =
       (calls w ++ [extraction_call (initial_state request); conversion_call s1])%list).
Proof.
  split.
  - intros e w1 He.
    pose proof (extract_languages_calls (initial_state request) w) as Hcalls.
    rewrite He in Hcalls.
    unfold convert_code_endpoint.
    rewrite try_body_run, invoke_build_chain, He.
    split; [ eexists; reflexivity | ]. split; [ reflexivity | exact Hcalls ].
  - intros s1 w1 He.
    pose proof (extract_languages_calls (initial_state request) w) as Hcalls.
    rewrite He in Hcalls. cbn [snd] in Hcalls. split; [ exact Hcalls | ].
    pose proof (convert_code_calls s1 w1) as Hcalls2.
    unfold convert_code_endpoint.
    rewrite try_body_run, invoke_build_chain, He. unfold in_generator.
    destruct (convert_code s1 w1) as [[s2 | e] w2]; cbn [snd] in Hcalls2.
    + assert (E : calls w2 =
                  (calls w ++ [extraction_call (initial_state request); conversion_call s1])%list)
        by (rewrite Hcalls2, Hcalls, <- app_assoc; reflexivity).
      destruct (subscript (st_result s2) "code"); [ | exact E ].
      destruct (subscript (st_result s2) "language_specific_notes"); [ | exact E ].
      destruct (subscript (st_result s2) "potential_compatibility_issues"); [ | exact E ].
      destruct (CodeConvertResponse_new a a0 a1); exact E.
    + cbn [snd]. rewrite Hcalls2, Hcalls, <- app_assoc. reflexivity.
Qed.

Lemma conversion_waits_for_extraction_witness :
  http_status
    (fst (scripted_endpoint example_request
            [Raise (mkExc "ConnectionError" "gateway unreachable")])) = 500%Z /\
  calls (@mkWorld scripted_runtime []
           [extraction_call (initial_state example_request)]) =
    [extraction_call (initial_state example_request)].
Proof.
  unfold scripted_endpoint.
  destruct (proj1 (@conversion_waits_for_extraction scripted_runtime example_request
                     (fresh_world [Raise (mkExc "ConnectionError" "gateway unreachable")]))
              (mkExc "ConnectionError" "gateway unreachable")
              (@mkWorld scripted_runtime []
                 [extraction_call (initial_state example_request)]))
    as (_ & Hstatus & Hcalls); [ reflexivity | ].
  split; [ exact Hstatus | exact Hcalls ].
Defined.

(** C3 as stated fails: a run whose second gateway call raises is a failing
    run, and the gateway has been called twice. *)
Lemma failing_run_with_two_calls :
  http_status
    (fst (scripted_endpoint example_request
            [Ok example_languages_text; Raise (mkExc "TimeoutError" "gateway timed out")]))
    = 500%Z /\
  length
    (calls (snd (scripted_endpoint example_request
                   [Ok example_languages_text;
                    Raise (mkExc "TimeoutError" "gateway timed out")])))
    = 2%nat.
Proof. split; reflexivity. Qed.

(** ** The two instructions *)

Lemma split_at_nonempty (sep : ascii) (s : string) : split_at sep s <> [].
Proof.
  destruct s as [ | c s]; simpl; [ discriminate | ].
  destruct (Ascii.eqb c sep); [ discriminate | ].
  destruct (split_at sep s); discriminate.
Qed.

(** Splitting a text that has a separator in it splits the two sides. *)
Lemma split_at_app (sep : ascii) (a b : string) :
  split_at sep (a ++ String sep b) = (split_at sep a ++ split_at sep b)%list.
Proof.
  induction a as [ | c a IH]; simpl.
  - now rewrite Ascii.eqb_refl.
  - destruct (Ascii.eqb c sep); [ now rewrite IH | ].
    rewrite IH.
    pose proof (split_at_nonempty sep a) as Hne.
    destruct (split_at sep a) as [ | piece pieces]; [ contradiction | reflexivity ].
Qed.

Lemma numbered_items_app (a b : string) :
  numbered_items (a ++ nl ++ b) = (numbered_items a ++ numbered_items b)%list.
Proof.
  unfold numbered_items, lines, nl. simpl (String _ EmptyString ++ b).
  now rewrite split_at_app, map_app, filter_app.
Qed.

(** C7, as the code has it: for every state the translation instruction
    ends with the same numbered list, which has five items, not four:
    maintain the functionality and logic, use idiomatic patterns and best
    practices of the target language, ensure the converted code is
    executable, provide language-specific considerations, and note
    potential compatibility issues.  Whatever the instruction numbers
    before that list comes from the text of the state. *)
Theorem conversion_prompt_requirements `{Runtime} (state : ConversionState) :
  numbered_items (conversion_prompt state) =
    (numbered_items (conversion_prompt_head state) ++ conversion_requirements)%list /\
  length conversion_requirements = 5%nat /\
  (4 < length (numbered_items (conversion_prompt state)))%nat.
Proof.
  assert (E : numbered_items (conversion_prompt state) =
              (numbered_items (conversion_prompt_head state) ++ conversion_requirements)%list).
  { unfold conversion_prompt, conversion_prompt_tail.
    rewrite numbered_items_app. f_equal. }
  split; [ exact E | ]. split; [ reflexivity | ].
  rewrite E, length_app. simpl. lia.
Qed.

(** C7 as stated fails: on the state of the example the instruction
    numbers five requirements. *)
Lemma conversion_prompt_has_five_items :
  numbered_items (@conversion_prompt scripted_runtime example_state) = conversion_requirements /\
  length (numbered_items (@conversion_prompt scripted_runtime example_state)) <> 4%nat.
Proof. split; [ reflexivity | discriminate ]. Qed.

(** C8, as the code has it: for every state the analysis instruction asks
    for a JSON object with a [source_language] and a [target_language] and
    offers ten names, all of them catalog members; the other 29 members of
    the catalog, [ruby] among them, are not in the instruction.  The
    restriction to the catalog is carried by the schema sent in the same
    call, which accepts exactly the objects whose two languages are
    catalog members, [ruby] included. *)
Theorem extraction_prompt_names (state : ConversionState) :
  mentions "identify the source and target programming languages"
    (extraction_prompt state) = true /\
  mentions "Return only a JSON object with 'source_language' and 'target_language'."
    (extraction_prompt state) = true /\
  listed_names (extraction_prompt state) = instruction_names /\
  length instruction_names = 10%nat /\
  (forall name, In name instruction_names -> In name catalog_values) /\
  length (filter (fun v => negb (existsb (String.eqb v) instruction_names)) catalog_values)
    = 29%nat /\
  ~ In (lang_value RUBY) (listed_names (extraction_prompt state)) /\
  call_prompt (extraction_call state) = extraction_prompt state /\
  (forall j : value,
     conforms (call_response_format (extraction_call state)) j = true <->
     exists entries (src tgt : ProgrammingLanguage),
       j = VDict entries /\
       dict_get entries "source_language" = Some (VStr (lang_value src)) /\
       dict_get entries "target_language" = Some (VStr (lang_value tgt))) /\
  conforms (call_response_format (extraction_call state))
    (VDict [("source_language", VStr (lang_value RUBY));
            ("target_language", VStr (lang_value RUBY))]) = true /\
  (forall lang : ProgrammingLanguage,
     conforms language_enum_schema (VStr (lang_value lang)) = true).
Proof.
  assert (E : listed_names (extraction_prompt state) = instruction_names)
    by (vm_compute; reflexivity).
  split; [ vm_compute; reflexivity | ].
  split; [ vm_compute; reflexivity | ].
  split; [ exact E | ]. split; [ reflexivity | ].
  split; [ intros name Hin; simpl in Hin; vm_compute; intuition congruence | ].
  split; [ reflexivity | ].
  split; [ rewrite E; simpl; intuition discriminate | ].
  split; [ reflexivity | ].
  split; [ intro j; apply extraction_schema_accepts | ].
  split; [ vm_compute; reflexivity | ].
  intros lang. apply language_enum_schema_accepts. now exists lang.
Qed.

(** C8 as stated fails: [ruby] is a member of the catalog and the
    instruction built for the request of the example does not offer it. *)
Lemma extraction_prompt_omits_ruby :
  In "ruby" catalog_values /\
  ~ In "ruby" (listed_names (extraction_prompt (initial_state example_request))).
Proof.
  split.
  - vm_compute. tauto.
  - vm_compute. intuition discriminate.
Qed.

(** * Further properties of the module *)

(** ** The catalog *)

(** X1: no two members of [ProgrammingLanguage] share a value, so the enum
    has no aliases: iterating it yields each of its 39 members once, and
    the [enum] lists of the stage-1 schema have 39 distinct entries, one
    for every member. *)
Theorem catalog_has_no_aliases :
  (forall a b : ProgrammingLanguage, lang_value a = lang_value b -> a = b) /\
  NoDup catalog_values /\
  length catalog_values = 39%nat /\
  (forall lang : ProgrammingLanguage, In (lang_value lang) catalog_values).
Proof.
  split; [ | split; [ | split ] ].
  - intros a b E. destruct a; destruct b; solve [ reflexivity | discriminate E ].
  - unfold catalog_values, all_languages; simpl.
    repeat (constructor; [ simpl; intuition discriminate | ]).
    constructor.
  - reflexivity.
  - intros lang. apply in_map. destruct lang; simpl; tauto.
Qed.

(** ** The chain *)

(** X2: the chain [build_chain] compiles runs [extract_languages] and then
    [convert_code] on the state the first returned, each once, and returns
    what the second returns.  When a stage raises, the run ends there, the
    other stage included, and the exception leaves [invoke] as it leaves a
    generator: unchanged, except that a [StopIteration] has become the
    [RuntimeError] "generator raised StopIteration".  No exception comes
    from the graph engine itself. *)
Theorem build_chain_is_sequential `{Runtime} (state : ConversionState) (w : World) :
  (forall (s2 : ConversionState) (w' : World),
     invoke build_chain state w = (Ok s2, w') <->
     exists s1 w1,
       extract_languages state w = (Ok s1, w1) /\ convert_code s1 w1 = (Ok s2, w')) /\
  (forall (e : PyExc) (w' : World),
     invoke build_chain state w = (Raise e, w') <->
     (exists e0, extract_languages state w = (Raise e0, w') /\ e = generator_raise e0) \/
     (exists s1 w1 e0,
        extract_languages state w = (Ok s1, w1) /\
        convert_code s1 w1 = (Raise e0, w') /\ e = generator_raise e0)) /\
  (forall e0 : PyExc,
     generator_raise e0 =
       if String.eqb (exc_class e0) "StopIteration"
       then mkExc "RuntimeError" "generator raised StopIteration"
       else e0).
Proof.
  split; [ | split; [ | reflexivity ] ].
  - intros s2 w'. rewrite invoke_build_chain. unfold in_generator.
    destruct (extract_languages state w) as [[s1 | e1] w1].
    + destruct (convert_code s1 w1) as [[s | e] w2] eqn:Hconv.
      * split.
        -- intros [= -> ->]. now exists s1, w1.
        -- intros (s1' & w1' & [= <- <-] & Hc). rewrite Hconv in Hc. exact Hc.
      * split; [ discriminate | ].
        intros (s1' & w1' & [= <- <-] & Hc). rewrite Hconv in Hc. discriminate Hc.
    + split; [ discriminate | ]. intros (s1' & w1' & Hx & _). discriminate Hx.
  - intros e w'. rewrite invoke_build_chain. unfold in_generator.
    destruct (extract_languages state w) as [[s1 | e1] w1].
    + destruct (convert_code s1 w1) as [[s | e2] w2] eqn:Hconv.
      * split; [ discriminate | ].
        intros [(e0 & Hx & _) | (s1' & w1' & e0 & [= <- <-] & Hc & _)];
          [ discriminate Hx | rewrite Hconv in Hc; discriminate Hc ].
      * split.
        -- intros [= <- <-]. right. now exists s1, w1, e2.
        -- intros [(e0 & Hx & _) | (s1' & w1' & e0 & [= <- <-] & Hc & ->)];
             [ discriminate Hx | ].
           rewrite Hconv in Hc. now injection Hc as -> ->.
    + split.
      * intros [= <- <-]. left. now exists e1.
      * intros [(e0 & [= <- <-] & ->) | (s1' & w1' & e0 & Hx & _)];
          [ reflexivity | discriminate Hx ].
Qed.

(** X3: the outcome of the chain depends on the [code] and [prompt] of the
    state it is started on and on nothing else: whatever
    [source_language], [target_language] and [result] hold at the start is
    overwritten and never read. *)
Theorem invoke_reads_code_and_prompt_only `{Runtime} (s s' : ConversionState) (w : World) :
  st_code s = st_code s' ->
  st_prompt s = st_prompt s' ->
  invoke build_chain s w = invoke build_chain s' w.
Proof.
  intros Hcode Hprompt.
  rewrite !invoke_build_chain, !extract_languages_run; cbv zeta.
  assert (Ecall : extraction_call s = extraction_call s')
    by (unfold extraction_call, extraction_prompt; now rewrite Hcode, Hprompt).
  rewrite Ecall.
  destruct (chat (extraction_call s') (gw w)) as [[text | e] g]; [ | reflexivity ].
  destruct (json_loads text) as [j | e]; [ | reflexivity ].
  destruct (subscript j "source_language") as [src | e]; [ | reflexivity ].
  destruct (subscript j "target_language") as [tgt | e]; [ | reflexivity ].
  unfold in_generator. rewrite !convert_code_run; cbv zeta.
  assert (Ecall2 : conversion_call (with_languages s src tgt) =
                   conversion_call (with_languages s' src tgt)).
  { unfold conversion_call, conversion_prompt, conversion_prompt_head, with_languages.
    cbn [st_code source_language target_language]. now rewrite Hcode. }
  rewrite Ecall2.
  destruct (chat (conversion_call (with_languages s' src tgt))
              (gw (after_call w (extraction_call s') g))) as [[text2 | e] g2];
    [ | reflexivity ].
  destruct (json_loads text2) as [j2 | e]; [ | reflexivity ].
  unfold with_result, with_languages.
  cbn [st_code st_prompt source_language target_language].
  now rewrite Hcode, Hprompt.
Qed.

Lemma invoke_reads_code_and_prompt_only_witness :
  @invoke scripted_runtime build_chain (initial_state example_request)
    (fresh_world [Ok example_languages_text; Ok example_result_text]) =
  @invoke scripted_runtime build_chain
    {| st_code := "print('hi')";
       st_prompt := "Convert Python to Go";
       source_language := VStr "cobol";
       target_language := VInt 7;
       st_result := VList [VNone] |}
    (fresh_world [Ok example_languages_text; Ok example_result_text]).
Proof.
  apply (@invoke_reads_code_and_prompt_only scripted_runtime); reflexivity.
Defined.

(** ** The second call *)

(** X4: the user's prompt is part of the instruction of the first call, and
    the instruction of the conversion call is built from the code and the
    two extracted languages only.  So two requests with the same code
    whose extraction stages return the same two languages make the same
    conversion call, whatever their prompts: the text of the user's prompt
    reaches the gateway in the first call and not in the second. *)
Theorem conversion_call_ignores_prompt `{Runtime} (code prompt prompt' : string)
  (w w' w1 w1' : World) (s1 s1' : ConversionState) :
  extract_languages (initial_state (mkRequest code prompt)) w = (Ok s1, w1) ->
  extract_languages (initial_state (mkRequest code prompt')) w' = (Ok s1', w1') ->
  source_language s1 = source_language s1' ->
  target_language s1 = target_language s1' ->
  conversion_call s1 = conversion_call s1' /\
  (exists before after : string,
     forall p : string,
       call_prompt (extraction_call (initial_state (mkRequest code p))) =
         before ++ p ++ after) /\
  calls w1 = (calls w ++ [extraction_call (initial_state (mkRequest code prompt))])%list /\
  calls w1' = (calls w' ++ [extraction_call (initial_state (mkRequest code prompt'))])%list.
Proof.
  intros Hrun Hrun' Hsrc Htgt.
  assert (Hc : st_code s1 = code).
  { rewrite extract_languages_run in Hrun; cbv zeta in Hrun.
    destruct (chat _ (gw w)) as [[text | e] g]; [ | discriminate Hrun ].
    destruct (json_loads text) as [j | e]; [ | discriminate Hrun ].
    destruct (subscript j "source_language") as [src | e]; [ | discriminate Hrun ].
    destruct (subscript j "target_language") as [tgt | e]; [ | discriminate Hrun ].
    injection Hrun as <- _. reflexivity. }
  assert (Hc' : st_code s1' = code).
  { rewrite extract_languages_run in Hrun'; cbv zeta in Hrun'.
    destruct (chat _ (gw w')) as [[text | e] g]; [ | discriminate Hrun' ].
    destruct (json_loads text) as [j | e]; [ | discriminate Hrun' ].
    destruct (subscript j "source_language") as [src | e]; [ | discriminate Hrun' ].
    destruct (subscript j "target_language") as [tgt | e]; [ | discriminate Hrun' ].
    injection Hrun' as <- _. reflexivity. }
  split; [ | split; [ | split ] ].
  - unfold conversion_call, conversion_prompt, conversion_prompt_head.
    now rewrite Hsrc, Htgt, Hc, Hc'.
  - exists (nl ++
      "    Analyze the following prompt and identify the source and target programming languages." ++ nl ++
      "    Return only a JSON object with 'source_language' and 'target_language'." ++ nl ++
      "    Use lowercase language names from this list: python, javascript, typescript, java, csharp, go, rust, cpp, swift, kotlin." ++ nl ++
      "    If languages are not explicitly mentioned, try to infer from context or code." ++ nl ++
      "    " ++ nl ++
      "    Prompt: ").
    exists (nl ++
      "    " ++ nl ++
      "    Code sample for reference:" ++ nl ++
      "    ```" ++ nl ++
      "    " ++ code ++ nl ++
      "    ```" ++ nl ++
      "    ").
    intros p. reflexivity.
  - pose proof (extract_languages_calls (initial_state (mkRequest code prompt)) w) as E.
    now rewrite Hrun in E.
  - pose proof (extract_languages_calls (initial_state (mkRequest code prompt')) w') as E.
    now rewrite Hrun' in E.
Qed.

Lemma conversion_call_ignores_prompt_witness :
  @conversion_call scripted_runtime example_state =
  @conversion_call scripted_runtime
    (with_languages (initial_state (mkRequest "print('hi')" "Please port this to Go"))
       (VStr "python") (VStr "go")).
Proof.
  refine (proj1 (@conversion_call_ignores_prompt scripted_runtime
           "print('hi')" "Convert Python to Go" "Please port this to Go"
           (fresh_world [Ok example_languages_text])
           (fresh_world [Ok example_languages_text])
           (@mkWorld scripted_runtime []
              [extraction_call (initial_state (mkRequest "print('hi')" "Convert Python to Go"))])
           (@mkWorld scripted_runtime []
              [extraction_call (initial_state (mkRequest "print('hi')" "Please port this to Go"))])
           _ _ _ _ _ _));
    reflexivity.
Defined.

(** ** The endpoint *)

(** X5: whatever the request (an empty [code] included) and whatever the
    gateway does, a run of the endpoint calls the gateway once or twice:
    the calls recorded before the run are kept, the first new call is the
    extraction call of the request, and a second new call, if there is
    one, is a conversion call.  There is no run without a call and none
    with a third: nothing is retried. *)
Theorem endpoint_calls_once_or_twice `{Runtime} (request : CodeConvertRequest)
  (w : World) :
  calls (snd (convert_code_endpoint request w)) =
    (calls w ++ [extraction_call (initial_state request)])%list \/
  exists s1 : ConversionState,
    calls (snd (convert_code_endpoint request w)) =
      (calls w ++ [extraction_call (initial_state request); conversion_call s1])%list.
Proof.
  pose proof (extract_languages_calls (initial_state request) w) as Hcalls.
  unfold convert_code_endpoint.
  rewrite try_body_run, invoke_build_chain.
  destruct (extract_languages (initial_state request) w) as [[s1 | e] w1];
    cbn [snd] in Hcalls.
  - right. exists s1.
    pose proof (convert_code_calls s1 w1) as Hcalls2.
    unfold in_generator.
    destruct (convert_code s1 w1) as [[s2 | e] w2]; cbn [snd] in Hcalls2.
    + assert (E : calls w2 =
                  (calls w ++ [extraction_call (initial_state request); conversion_call s1])%list)
        by (rewrite Hcalls2, Hcalls, <- app_assoc; reflexivity).
      destruct (subscript (st_result s2) "code") as [c | e]; [ | exact E ].
      destruct (subscript (st_result s2) "language_specific_notes") as [n | e]; [ | exact E ].
      destruct (subscript (st_result s2) "potential_compatibility_issues") as [i | e];
        [ | exact E ].
      destruct (CodeConvertResponse_new c n i); exact E.
    + cbn [snd]. rewrite Hcalls2, Hcalls, <- app_assoc. reflexivity.
  - left. exact Hcalls.
Qed.

(** X6: when the first answer parses to an object without the key
    [source_language], the endpoint answers 500 with the text of the
    [KeyError] of that key after the one call, whether or not
    [target_language] is there; when only [target_language] is missing,
    the text is that of its [KeyError]. *)
Theorem missing_language_key_is_reported `{Runtime} (request : CodeConvertRequest)
  (w : World) (text : string) (g : Gateway) (entries : list (string * value)) :
  chat (extraction_call (initial_state request)) (gw w) = (Ok text, g) ->
  json_loads text = Ok (VDict entries) ->
  (dict_get entries "source_language" = None ->
   convert_code_endpoint request w =
     (HTTPException 500 ("Code conversion failed: " ++ py_repr (VStr "source_language")),
      after_call w (extraction_call (initial_state request)) g)) /\
  (dict_get entries "source_language" <> None ->
   dict_get entries "target_language" = None ->
   convert_code_endpoint request w =
     (HTTPException 500 ("Code conversion failed: " ++ py_repr (VStr "target_language")),
      after_call w (extraction_call (initial_state request)) g)).
Proof.
  intros Hchat Hjson.
  unfold convert_code_endpoint.
  rewrite try_body_run, invoke_build_chain, extract_languages_run; cbv zeta.
  rewrite Hchat, Hjson. cbn [subscript].
  split.
  - intros ->. reflexivity.
  - intros Hsrc ->.
    destruct (dict_get entries "source_language"); [ reflexivity | contradiction ].
Qed.

Lemma missing_language_key_is_reported_witness :
  scripted_endpoint example_request [Ok "{}"] =
    (HTTPException 500 "Code conversion failed: 'source_language'",
     @mkWorld scripted_runtime [] [extraction_call (initial_state example_request)]).
Proof.
  unfold scripted_endpoint.
  apply (proj1 (@missing_language_key_is_reported scripted_runtime example_request
                  (fresh_world [Ok "{}"]) "{}" [] [] eq_refl eq_refl)).
  reflexivity.
Defined.

(** X7: when both stages ran and the second answer parses to an object
    that lacks one of the three keys of the response, the endpoint answers
    500 with the text of the [KeyError] of the first key missing, in the
    order [code], [language_specific_notes],
    [potential_compatibility_issues]. *)
Theorem missing_result_key_is_reported `{Runtime} (request : CodeConvertRequest)
  (w w1 : World) (s1 : ConversionState) (text : string) (g : Gateway)
  (entries : list (string * value)) :
  extract_languages (initial_state request) w = (Ok s1, w1) ->
  chat (conversion_call s1) (gw w1) = (Ok text, g) ->
  json_loads text = Ok (VDict entries) ->
  (dict_get entries "code" = None ->
   convert_code_endpoint request w =
     (HTTPException 500 ("Code conversion failed: " ++ py_repr (VStr "code")),
      after_call w1 (conversion_call s1) g)) /\
  (dict_get entries "code" <> None ->
   dict_get entries "language_specific_notes" = None ->
   convert_code_endpoint request w =
     (HTTPException 500
        ("Code conversion failed: " ++ py_repr (VStr "language_specific_notes")),
      after_call w1 (conversion_call s1) g)) /\
  (dict_get entries "code" <> None ->
   dict_get entries "language_specific_notes" <> None ->
   dict_get entries "potential_compatibility_issues" = None ->
   convert_code_endpoint request w =
     (HTTPException 500
        ("Code conversion failed: " ++ py_repr (VStr "potential_compatibility_issues")),
      after_call w1 (conversion_call s1) g)).
Proof.
  intros Hrun Hchat Hjson.
  unfold convert_code_endpoint.
  rewrite try_body_run, invoke_build_chain, Hrun. unfold in_generator.
  rewrite convert_code_run; cbv zeta.
  rewrite Hchat, Hjson. cbn [with_result st_result subscript].
  split; [ | split ].
  - intros ->. reflexivity.
  - intros Hcode ->.
    destruct (dict_get entries "code"); [ reflexivity | contradiction ].
  - intros Hcode Hnotes ->.
    destruct (dict_get entries "code"); [ | contradiction ].
    destruct (dict_get entries "language_specific_notes"); [ reflexivity | contradiction ].
Qed.

Lemma missing_result_key_is_reported_witness :
  fst (scripted_endpoint example_request [Ok example_languages_text; Ok "{}"]) =
    HTTPException 500 "Code conversion failed: 'code'".
Proof.
  unfold scripted_endpoint.
  rewrite (proj1 (@missing_result_key_is_reported scripted_runtime example_request
                    (fresh_world [Ok example_languages_text; Ok "{}"])
                    (@mkWorld scripted_runtime [Ok "{}"]
                       [extraction_call (initial_state example_request)])
                    example_state "{}" [] [] eq_refl eq_refl eq_refl) eq_refl).
  reflexivity.
Defined.

Lemma subscript_ok_inv `{Runtime} (v : value) (k : string) (x : value) :
  subscript v k = Ok x ->
  exists entries, v = VDict entries /\ dict_get entries k = Some x.
Proof.
  destruct v; simpl; try discriminate.
  destruct (dict_get entries k) as [y | ] eqn:E; [ | discriminate ].
  intros [= ->]. now exists entries.
Qed.

Lemma as_str_items_inv (items : list value) (l : list string) :
  as_str_items items = Some l -> items = map VStr l.
Proof.
  revert l. induction items as [ | v items IH]; intros l; simpl.
  - now intros [= <-].
  - destruct v; try discriminate.
    destruct (as_str_items items) as [l' | ]; [ | discriminate ].
    intros [= <-]. simpl. now rewrite (IH l' eq_refl).
Qed.

(** The response model is built from a string and two lists of strings,
    which it keeps as they are, and from nothing else. *)
Lemma CodeConvertResponse_new_ok `{Runtime} (code notes issues : value)
  (response : CodeConvertResponse) :
  CodeConvertResponse_new code notes issues = Ok response <->
  code = VStr (resp_code response) /\
  notes = VList (map VStr (language_specific_notes response)) /\
  issues = VList (map VStr (potential_compatibility_issues response)).
Proof.
  unfold CodeConvertResponse_new. split.
  - destruct code; try discriminate.
    destruct notes; try discriminate.
    cbn [as_str as_str_list].
    destruct (as_str_items items) as [n | ] eqn:En; [ | discriminate ].
    destruct issues; try discriminate.
    cbn [as_str_list].
    destruct (as_str_items items0) as [i | ] eqn:Ei; [ | discriminate ].
    intros [= <-]. cbn.
    now rewrite (as_str_items_inv _ _ En), (as_str_items_inv _ _ Ei).
  - intros (-> & -> & ->). cbn [as_str as_str_list].
    rewrite !as_str_items_map. now destruct response.
Qed.

(** X8: the endpoint returns a response exactly when both gateway calls
    return, the first answer parses to an object that has the keys
    [source_language] and [target_language] (with any values), and the
    second answer parses to a value the stage-2 schema accepts; the
    response then carries the three fields of that value, and the run made
    exactly the two calls.  So a 200 always carries a string and two lists
    of strings, although nothing checked the first answer against its
    schema. *)
Theorem endpoint_returns_iff `{Runtime} (request : CodeConvertRequest) (w w' : World)
  (response : CodeConvertResponse) :
  convert_code_endpoint request w = (Returned response, w') <->
  exists (text1 : string) (g1 : Gateway) (entries1 : list (string * value))
         (src tgt : value) (text2 : string) (j2 : value),
    chat (extraction_call (initial_state request)) (gw w) = (Ok text1, g1) /\
    json_loads text1 = Ok (VDict entries1) /\
    dict_get entries1 "source_language" = Some src /\
    dict_get entries1 "target_language" = Some tgt /\
    chat (conversion_call (with_languages (initial_state request) src tgt)) g1
      = (Ok text2, gw w') /\
    json_loads text2 = Ok j2 /\
    conforms conversion_response_format j2 = true /\
    VStr (resp_code response) = field j2 "code" /\
    VList (map VStr (language_specific_notes response)) =
      field j2 "language_specific_notes" /\
    VList (map VStr (potential_compatibility_issues response)) =
      field j2 "potential_compatibility_issues" /\
    calls w' =
      (calls w ++ [extraction_call (initial_state request);
                   conversion_call (with_languages (initial_state request) src tgt)])%list.
Proof.
  unfold convert_code_endpoint.
  rewrite try_body_run, invoke_build_chain, extract_languages_run; cbv zeta.
  split.
  - destruct (chat (extraction_call (initial_state request)) (gw w))
      as [[text1 | e] g1] eqn:Hc1; [ | discriminate ].
    destruct (json_loads text1) as [j1 | e] eqn:Hj1; [ | discriminate ].
    destruct (subscript j1 "source_language") as [src | e] eqn:Hsrc; [ | discriminate ].
    destruct (subscript j1 "target_language") as [tgt | e] eqn:Htgt; [ | discriminate ].
    unfold in_generator. rewrite convert_code_run; cbv zeta. cbn [after_call gw].
    destruct (chat (conversion_call (with_languages (initial_state request) src tgt)) g1)
      as [[text2 | e] g2] eqn:Hc2; [ | discriminate ].
    destruct (json_loads text2) as [j2 | e] eqn:Hj2; [ | discriminate ].
    cbn [with_result st_result].
    destruct (subscript j2 "code") as [c | e] eqn:Hc; [ | discriminate ].
    destruct (subscript j2 "language_specific_notes") as [n | e] eqn:Hn; [ | discriminate ].
    destruct (subscript j2 "potential_compatibility_issues") as [i | e] eqn:Hi;
      [ | discriminate ].
    destruct (CodeConvertResponse_new c n i) as [r | e] eqn:Hnew; [ | discriminate ].
    intros [= <- <-].
    apply CodeConvertResponse_new_ok in Hnew. destruct Hnew as (-> & -> & ->).
    apply subscript_ok_inv in Hsrc. destruct Hsrc as (entries1 & -> & Hsrc).
    apply subscript_ok_inv in Htgt. destruct Htgt as (entries1' & [= <-] & Htgt).
    apply subscript_ok_inv in Hc. destruct Hc as (entries2 & -> & Hc).
    apply subscript_ok_inv in Hn. destruct Hn as (entries2' & [= <-] & Hn).
    apply subscript_ok_inv in Hi. destruct Hi as (entries2' & [= <-] & Hi).
    exists text1, g1, entries1, src, tgt, text2, (VDict entries2).
    cbn [gw calls after_call].
    rewrite (field_present _ _ _ Hc), (field_present _ _ _ Hn), (field_present _ _ _ Hi).
    rewrite <- app_assoc.
    repeat split; try assumption.
    apply conversion_schema_accepts.
    exists entries2, (resp_code r), (language_specific_notes r),
      (potential_compatibility_issues r). auto.
  - intros (text1 & g1 & entries1 & src & tgt & text2 & j2 &
            Hc1 & Hj1 & Hsrc & Htgt & Hc2 & Hj2 & Hconf & Hc & Hn & Hi & Hcalls).
    rewrite Hc1, Hj1, (subscript_present _ _ _ Hsrc), (subscript_present _ _ _ Htgt).
    unfold in_generator. rewrite convert_code_run; cbv zeta. cbn [after_call gw].
    rewrite Hc2, Hj2. cbn [with_result st_result].
    apply conversion_schema_accepts in Hconf.
    destruct Hconf as (entries2 & code & notes & issues & -> & Gc & Gn & Gi).
    rewrite (field_present _ _ _ Gc) in Hc.
    rewrite (field_present _ _ _ Gn) in Hn.
    rewrite (field_present _ _ _ Gi) in Hi.
    rewrite (subscript_present _ _ _ Gc), (subscript_present _ _ _ Gn),
      (subscript_present _ _ _ Gi).
    rewrite <- Hc, <- Hn, <- Hi.
    rewrite (proj2 (CodeConvertResponse_new_ok _ _ _ response)) by auto.
    f_equal. destruct w' as [g' l']. cbn [gw calls] in *.
    unfold after_call. cbn [gw calls]. f_equal.
    rewrite Hcalls, <- app_assoc. reflexivity.
Qed.

(** X9: an answer of stage 2 that has the three keys but not the three
    types is not passed on and nothing is converted to fit: when [code] is
    not a string, or one of the two lists is not a list of strings, the
    endpoint answers 500 with the text of the validation error. *)
Theorem ill_typed_result_is_rejected `{Runtime} (request : CodeConvertRequest)
  (w w1 : World) (s1 : ConversionState) (text : string) (g : Gateway)
  (entries : list (string * value)) (code notes issues : value) :
  extract_languages (initial_state request) w = (Ok s1, w1) ->
  chat (conversion_call s1) (gw w1) = (Ok text, g) ->
  json_loads text = Ok (VDict entries) ->
  dict_get entries "code" = Some code ->
  dict_get entries "language_specific_notes" = Some notes ->
  dict_get entries "potential_compatibility_issues" = Some issues ->
  conforms conversion_response_format (VDict entries) = false ->
  convert_code_endpoint request w =
    (HTTPException 500
       ("Code conversion failed: " ++ validation_error_str code notes issues),
     after_call w1 (conversion_call s1) g).
Proof.
  intros Hrun Hchat Hjson Hc Hn Hi Hbad.
  unfold convert_code_endpoint.
  rewrite try_body_run, invoke_build_chain, Hrun. unfold in_generator.
  rewrite convert_code_run; cbv zeta.
  rewrite Hchat, Hjson. cbn [with_result st_result].
  rewrite (subscript_present _ _ _ Hc), (subscript_present _ _ _ Hn),
    (subscript_present _ _ _ Hi).
  destruct (CodeConvertResponse_new code notes issues) as [r | e] eqn:Hnew.
  - apply CodeConvertResponse_new_ok in Hnew. destruct Hnew as (-> & -> & ->).
    assert (Hgood : conforms conversion_response_format (VDict entries) = true).
    { apply conversion_schema_accepts.
      exists entries, (resp_code r), (language_specific_notes r),
        (potential_compatibility_issues r). auto. }
    rewrite Hgood in Hbad. discriminate Hbad.
  - unfold CodeConvertResponse_new in Hnew.
    destruct (as_str code), (as_str_list notes), (as_str_list issues);
      try discriminate Hnew; injection Hnew as <-; reflexivity.
Qed.

Lemma ill_typed_result_is_rejected_witness :
  fst (scripted_endpoint example_request
         [Ok example_languages_text;
          Ok ("{" ++ quoted "code" ++ ":1," ++ quoted "language_specific_notes" ++ ":[],"
                  ++ quoted "potential_compatibility_issues" ++ ":[]}")]) =
    HTTPException 500 "Code conversion failed: validation error for CodeConvertResponse".
Proof.
  unfold scripted_endpoint.
  rewrite (@ill_typed_result_is_rejected scripted_runtime example_request
             (fresh_world
                [Ok example_languages_text;
                 Ok ("{" ++ quoted "code" ++ ":1," ++ quoted "language_specific_notes" ++ ":[],"
                         ++ quoted "potential_compatibility_issues" ++ ":[]}")])
             (@mkWorld scripted_runtime
                [Ok ("{" ++ quoted "code" ++ ":1," ++ quoted "language_specific_notes" ++ ":[],"
                         ++ quoted "potential_compatibility_issues" ++ ":[]}")]
                [extraction_call (initial_state example_request)])
             example_state
             ("{" ++ quoted "code" ++ ":1," ++ quoted "language_specific_notes" ++ ":[],"
                  ++ quoted "potential_compatibility_issues" ++ ":[]}")
             []
             [("code", VInt 1); ("language_specific_notes", VList []);
              ("potential_compatibility_issues", VList [])]
             (VInt 1) (VList []) (VList []));
    reflexivity.
Defined.
